(** * Library Management System: the storage handlers of [main.py]

    The program is a Tk application whose button callbacks run SQL
    statements against a SQLite file.  The development below embeds the
    three tables and the callbacks that read or write them:

    - [init_db]                         (tables created empty)
    - [AddBookFrame.save_book]
    - [ViewBooksFrame.load_books], [search_action], [delete_selected],
      [save_update]
    - [IssueBookFrame.issue_book]
    - [ReturnBookFrame.load_issued_books], [return_book]

    A callback becomes a function from the text of its entry fields (or the
    selected tree row and the answer to the confirmation dialog) and the
    database to the message box it shows and the database it leaves behind.

    Conventions of the model:
    - a table is the list of its rows in rowid order; [AUTOINCREMENT] keeps
      the largest rowid ever handed out in [sqlite_sequence], modelled by the
      [*_seq] fields;
    - a number is the [Z] it denotes.  Python refuses to bind an [int] above
      2^63-1 ([OverflowError], caught by the callback's [except]), which
      [save_book] and [save_update] reproduce.  A quantity within 64 bits
      is an INTEGER; [quantity + 1] at 2^63-1 leaves 64 bits, SQLite then
      computes in floating point and the column holds the REAL 2^63, on
      which a further [+ 1] or [- 1] is lost in rounding ([sql_plus_one],
      [sql_minus_one]).  The exhaustion of rowids after 2^63 inserts is
      outside the model;
    - strings are byte strings, the UTF-8 encoding of the Python strings;
      [strip] and [int] are modelled on ASCII (CPython also accepts
      non-ASCII spaces and digits, and, from 3.11 on, refuses literals of
      more than 4300 digits);
    - [date.today()] is an input of the callbacks that use it;
    - failures of the storage itself (locked or unreadable file) are not
      modelled. *)

From Stdlib Require Import ZArith List String Ascii Bool Lia Sorted Permutation.
Import ListNotations.

Local Open Scope string_scope.
Local Open Scope Z_scope.

(** ** Text helpers: [str.strip], truthiness, [int] *)

Definition code (c : ascii) : Z := Z.of_N (N_of_ascii c).

(** [str.isspace] on ASCII: TAB..CR, FS..US and the space. *)
Definition is_space (c : ascii) : bool :=
  ((9 <=? code c) && (code c <=? 13)) || ((28 <=? code c) && (code c <=? 32)).

Definition is_digit (c : ascii) : bool :=
  (48 <=? code c) && (code c <=? 57).

Definition digit_value (c : ascii) : Z := code c - 48.

(** [not s] for a Python string. *)
Definition is_empty (s : string) : bool :=
  match s with
  | EmptyString => true
  | String _ _ => false
  end.

Fixpoint lstrip (s : string) : string :=
  match s with
  | EmptyString => EmptyString
  | String c s' => if is_space c then lstrip s' else s
  end.

Fixpoint rstrip (s : string) : string :=
  match s with
  | EmptyString => EmptyString
  | String c s' =>
      let r := rstrip s' in
      if is_space c && is_empty r then EmptyString else String c r
  end.

Definition strip (s : string) : string := rstrip (lstrip s).

(** Decimal digits; with [underscores] a single ["_"] may separate two
    digits, as in Python's integer literals.  [seen] tells that the
    previous character was a digit. *)
Fixpoint digits (underscores : bool) (s : string) (acc : Z) (seen : bool)
  : option Z :=
  match s with
  | EmptyString => if seen then Some acc else None
  | String c s' =>
      if is_digit c then digits underscores s' (10 * acc + digit_value c) true
      else if underscores && Ascii.eqb c "_" && seen
           then digits underscores s' acc false
           else None
  end.

Definition signed (underscores : bool) (s : string) : option Z :=
  match s with
  | String "-" s' => option_map Z.opp (digits underscores s' 0 false)
  | String "+" s' => digits underscores s' 0 false
  | _ => digits underscores s 0 false
  end.

(** [int(s)]: [None] stands for [ValueError]. *)
Definition py_int (s : string) : option Z := signed true (strip s).

Definition max_int64 : Z := 9223372036854775807.

Definition min_int64 : Z := -9223372036854775808.

(** SQLite's [quantity + 1].  Within 64 bits the sum is exact; at 2^63-1 it
    becomes the REAL 2^63, which does not fit an INTEGER and is stored as
    it is; on a REAL of that size adding 1 changes nothing. *)
Definition sql_plus_one (q : Z) : Z :=
  if (min_int64 <=? q) && (q <=? max_int64) then q + 1 else q.

(** SQLite's [quantity - 1].  Within 64 bits the difference is exact; at
    -2^63 it is computed in floating point and rounds back to -2^63; on
    the REAL 2^63 subtracting 1 changes nothing.  (The REAL -2^63 this
    leaves is read as the INTEGER -2^63 by [sql_plus_one]; the callbacks
    store no negative quantity.) *)
Definition sql_minus_one (q : Z) : Z :=
  if (min_int64 <? q) && (q <=? max_int64) then q - 1 else q.

(** ** Tables *)

(** [books(id, title, author, quantity)] *)
Record book := mkBook {
  b_id : Z;
  b_title : string;
  b_author : string;
  b_quantity : Z
}.

(** [students(id, name, roll_no)] *)
Record student := mkStudent {
  s_id : Z;
  s_name : string;
  s_roll_no : string
}.

(** [issued_books(id, book_id, student_id, issue_date, return_date)];
    [return_date] is the only nullable column. *)
Record issued := mkIssued {
  i_id : Z;
  i_book_id : Z;
  i_student_id : Z;
  i_issue_date : string;
  i_return_date : option string
}.

Record db := mkDb {
  books : list book;
  books_seq : Z;
  students : list student;
  students_seq : Z;
  issued_books : list issued;
  issued_seq : Z
}.

(** [init_db] on a fresh file. *)
Definition init_db : db := mkDb [] 0 [] 0 [] 0.

Definition largest (ids : list Z) : Z := fold_right Z.max 0 ids.

(** The rowid an [AUTOINCREMENT] key gives to the next inserted row: one
    more than the largest rowid the table has ever held. *)
Definition next_rowid (seq : Z) (ids : list Z) : Z :=
  Z.max seq (largest ids) + 1.

(** ** SQL statements *)

(** [INSERT INTO books (title, author, quantity) VALUES (?, ?, ?)] *)
Definition insert_book (title author : string) (qty : Z) (d : db) : db :=
  let n := next_rowid (books_seq d) (map b_id (books d)) in
  mkDb (books d ++ [mkBook n title author qty]) n
       (students d) (students_seq d) (issued_books d) (issued_seq d).

(** [UPDATE books SET title = ?, author = ?, quantity = ? WHERE id = ?] *)
Definition update_book (book_id : Z) (title author : string) (qty : Z)
  (d : db) : db :=
  mkDb (map (fun b => if b_id b =? book_id
                      then mkBook (b_id b) title author qty else b)
            (books d))
       (books_seq d) (students d) (students_seq d)
       (issued_books d) (issued_seq d).

(** [DELETE FROM books WHERE id = ?] *)
Definition delete_book (book_id : Z) (d : db) : db :=
  mkDb (filter (fun b => negb (b_id b =? book_id)) (books d))
       (books_seq d) (students d) (students_seq d)
       (issued_books d) (issued_seq d).

(** [UPDATE books SET quantity = f(quantity) WHERE id = ?] *)
Definition change_quantity (f : Z -> Z) (book_id : Z) (d : db) : db :=
  mkDb (map (fun b => if b_id b =? book_id
                      then mkBook (b_id b) (b_title b) (b_author b)
                                  (f (b_quantity b))
                      else b)
            (books d))
       (books_seq d) (students d) (students_seq d)
       (issued_books d) (issued_seq d).

(** [UPDATE books SET quantity = quantity + 1 WHERE id = ?] *)
Definition increment_quantity (book_id : Z) (d : db) : db :=
  change_quantity sql_plus_one book_id d.

(** [UPDATE books SET quantity = quantity - 1 WHERE id = ?] *)
Definition decrement_quantity (book_id : Z) (d : db) : db :=
  change_quantity sql_minus_one book_id d.

(** [SELECT quantity FROM books WHERE id = ?], [fetchone] *)
Definition select_book (book_id : Z) (d : db) : option book :=
  find (fun b => b_id b =? book_id) (books d).

(** [SELECT id, name FROM students WHERE roll_no = ?], [fetchone] *)
Definition select_student (roll_no : string) (d : db) : option student :=
  find (fun s => String.eqb (s_roll_no s) roll_no) (students d).

(** [INSERT INTO students (name, roll_no) VALUES (?, ?)]; the second
    component is [cur.lastrowid]. *)
Definition insert_student (name roll_no : string) (d : db) : db * Z :=
  let n := next_rowid (students_seq d) (map s_id (students d)) in
  (mkDb (books d) (books_seq d)
        (students d ++ [mkStudent n name roll_no]) n
        (issued_books d) (issued_seq d), n).

Definition is_open (i : issued) : bool :=
  match i_return_date i with
  | None => true
  | Some _ => false
  end.

(** [SELECT * FROM issued_books WHERE book_id = ? AND return_date IS NULL] *)
Definition open_loans_of_book (book_id : Z) (d : db) : list issued :=
  filter (fun i => (i_book_id i =? book_id) && is_open i) (issued_books d).

(** [SELECT * FROM issued_books WHERE book_id = ? AND student_id = ?
     AND return_date IS NULL] *)
Definition open_loans (book_id student_id : Z) (d : db) : list issued :=
  filter (fun i => (i_book_id i =? book_id) && (i_student_id i =? student_id)
                   && is_open i)
         (issued_books d).

(** [cur.fetchone()] used as a condition. *)
Definition fetched {A : Type} (rows : list A) : bool :=
  match rows with
  | [] => false
  | _ :: _ => true
  end.

(** [INSERT INTO issued_books (book_id, student_id, issue_date)
     VALUES (?, ?, ?)] *)
Definition insert_issued (book_id student_id : Z) (today : string) (d : db)
  : db :=
  let n := next_rowid (issued_seq d) (map i_id (issued_books d)) in
  mkDb (books d) (books_seq d) (students d) (students_seq d)
       (issued_books d ++ [mkIssued n book_id student_id today None]) n.

(** [UPDATE issued_books SET return_date = ? WHERE id = ?] *)
Definition set_return_date (issue_id : Z) (today : string) (d : db) : db :=
  mkDb (books d) (books_seq d) (students d) (students_seq d)
       (map (fun i => if i_id i =? issue_id
                      then mkIssued (i_id i) (i_book_id i) (i_student_id i)
                                    (i_issue_date i) (Some today)
                      else i)
            (issued_books d))
       (issued_seq d).

(** ** [ORDER BY] and [LIKE] *)

Fixpoint insert_sorted {A : Type} (le : A -> A -> bool) (x : A) (l : list A)
  : list A :=
  match l with
  | [] => [x]
  | y :: l' => if le x y then x :: l else y :: insert_sorted le x l'
  end.

(** [ORDER BY] a text column under the default BINARY collation.  Rows with
    equal keys keep their rowid order (SQLite leaves that order open). *)
Definition order_by {A : Type} (key : A -> string) (l : list A) : list A :=
  fold_right (insert_sorted (fun x y => String.leb (key x) (key y))) [] l.

Definition lower (c : ascii) : ascii :=
  if (65 <=? code c) && (code c <=? 90)
  then ascii_of_N (N_of_ascii c + 32) else c.

(** The bytes of a UTF-8 character after the first one. *)
Definition is_continuation (c : ascii) : bool :=
  (128 <=? code c) && (code c <=? 191).

(** The first byte of a UTF-8 character of several bytes. *)
Definition is_lead (c : ascii) : bool := 192 <=? code c.

Definition starts_continuation (s : string) : bool :=
  match s with
  | EmptyString => false
  | String c _ => is_continuation c
  end.

Fixpoint skip_continuation (s : string) : string :=
  match s with
  | EmptyString => EmptyString
  | String c s' => if is_continuation c then skip_continuation s' else s
  end.

(** The text as SQLite's pattern matcher reads it: up to the first NUL. *)
Fixpoint c_string (s : string) : string :=
  match s with
  | EmptyString => EmptyString
  | String c s' => if code c =? 0 then EmptyString else String c (c_string s')
  end.

(** The ["%"] of a pattern: [rest], the matcher of what follows it, is
    tried at every character boundary of the text.  A character is a byte
    below 192, or a byte from 192 on with the continuation bytes that
    follow it; [inside] tells that the bytes read so far end inside a
    character. *)
Fixpoint scan (rest : string -> bool) (inside : bool) (text : string)
  : bool :=
  (negb (inside && starts_continuation text) && rest text)
  || match text with
     | EmptyString => false
     | String t text' =>
         scan rest (is_lead t || (inside && is_continuation t)) text'
     end.

(** SQLite's pattern matcher for [LIKE].  ["%"] matches any run of
    characters and ["_"] exactly one; every other byte of the pattern
    matches itself, upper and lower case ASCII letters being equal. *)
Fixpoint pattern_compare (pattern : string) : string -> bool :=
  match pattern with
  | EmptyString => is_empty
  | String p pattern' =>
      if Ascii.eqb p "%" then scan (pattern_compare pattern') false
      else if Ascii.eqb p "_" then
        fun text =>
          match text with
          | EmptyString => false
          | String t text' =>
              pattern_compare pattern'
                (if is_lead t then skip_continuation text' else text')
          end
      else
        fun text =>
          match text with
          | EmptyString => false
          | String t text' =>
              Ascii.eqb (lower p) (lower t) && pattern_compare pattern' text'
          end
  end.

(** [text LIKE pattern]: both operands are read up to their first NUL. *)
Definition like (pattern text : string) : bool :=
  pattern_compare (c_string pattern) (c_string text).

(** [SQLITE_MAX_LIKE_PATTERN_LENGTH]: a longer pattern makes [LIKE] raise
    "LIKE or GLOB pattern too complex". *)
Definition like_pattern_limit : Z := 50000.

(** ** Message boxes *)

Inductive outcome :=
| InputError      (* showwarning("Input Error", ...) *)
| NoSelection     (* showwarning("No Selection", ...) *)
| BookNotFound    (* showwarning("Error", "Book ID not found.") *)
| Unavailable     (* showwarning("Unavailable", ...) *)
| AlreadyIssued   (* showwarning("Already Issued", ...) *)
| CannotDelete    (* showerror("Error", "Cannot delete book. ...") *)
| DatabaseError   (* showerror("Database Error", ...) *)
| Declined        (* askyesno answered no: nothing is shown *)
| Done.           (* showinfo(...) *)

(** The error kinds of the service contract. *)
Inductive error := ValidationError | NotFoundError | ConflictError
                 | StorageError.

Definition error_of (r : outcome) : option error :=
  match r with
  | InputError | NoSelection => Some ValidationError
  | BookNotFound => Some NotFoundError
  | Unavailable | AlreadyIssued | CannotDelete => Some ConflictError
  | DatabaseError => Some StorageError
  | Declined | Done => None
  end.

(** A result that is one of [ValidationError], [NotFoundError],
    [ConflictError]. *)
Definition failed (r : outcome) : bool :=
  match error_of r with
  | Some ValidationError | Some NotFoundError | Some ConflictError => true
  | _ => false
  end.

(** ** [AddBookFrame.save_book] *)

Definition save_book (title_entry author_entry quantity_entry : string)
  (d : db) : outcome * db :=
  let title := strip title_entry in
  let author := strip author_entry in
  let qty := strip quantity_entry in
  if is_empty title || is_empty author || is_empty qty then (InputError, d)
  else
    match py_int qty with
    | None => (InputError, d)
    | Some q =>
        if q <? 0 then (InputError, d)
        else if max_int64 <? q then (DatabaseError, d)
        else (Done, insert_book title author q d)
    end.

(** ** [ViewBooksFrame] *)

(** The [SELECT] of [load_books] raises: the pattern built from the filter
    is too long for [LIKE], which is found out when a row is compared.  The
    callback then shows the "Database Error" box. *)
Definition load_books_fails (filter_text : string) (d : db) : bool :=
  negb (is_empty filter_text)
  && (like_pattern_limit
      <? Z.of_nat (String.length ("%" ++ filter_text ++ "%")))
  && fetched (books d).

(** [load_books]: the rows put in the tree, which was emptied first and
    stays empty when the [SELECT] raises. *)
Definition load_books (filter_text : string) (d : db) : list book :=
  if load_books_fails filter_text d then []
  else if is_empty filter_text
  then order_by b_title (books d)
  else order_by b_title
         (filter (fun b => like ("%" ++ filter_text ++ "%") (b_title b))
                 (books d)).

Definition search_action (search_entry : string) (d : db) : list book :=
  load_books (strip search_entry) d.

(** [delete_selected]: [selected] is the focused tree row, [confirm] the
    answer to [askyesno]. *)
Definition delete_selected (selected : option book) (confirm : bool) (d : db)
  : outcome * db :=
  match selected with
  | None => (NoSelection, d)
  | Some row =>
      let book_id := b_id row in
      if confirm then
        if fetched (open_loans_of_book book_id d) then (CannotDelete, d)
        else (Done, delete_book book_id d)
      else (Declined, d)
  end.

(** [save_update]: [book_id] comes from the tree row the update window was
    opened on. *)
Definition save_update (book_id : Z)
  (title_entry author_entry qty_entry : string) (d : db) : outcome * db :=
  let title := strip title_entry in
  let author := strip author_entry in
  let qty := strip qty_entry in
  if is_empty title || is_empty author || is_empty qty then (InputError, d)
  else
    match py_int qty with
    | None => (InputError, d)
    | Some q =>
        if q <? 0 then (InputError, d)
        else if max_int64 <? q then (DatabaseError, d)
        else (Done, update_book book_id title author q d)
    end.

(** ** [IssueBookFrame.issue_book] *)

Section Issue.

(** The book id is sent to SQLite as the text typed in the entry; compared
    with, or stored in, an INTEGER column it goes through the column's
    affinity.  [affinity s = Some k] when the text converts to the integer
    [k]; text that converts to no integer equals no id. *)
Variable affinity : string -> option Z.

Definition issue_book (book_id_entry roll_entry sname_entry today : string)
  (d : db) : outcome * db :=
  let book_id := strip book_id_entry in
  let sroll := strip roll_entry in
  let sname := strip sname_entry in
  if is_empty book_id || is_empty sroll then (InputError, d)
  else
    match affinity book_id with
    | None => (BookNotFound, d)
    | Some k =>
        (* 1. Check book availability *)
        match select_book k d with
        | None => (BookNotFound, d)
        | Some b =>
            if b_quantity b <=? 0 then (Unavailable, d)
            else
              (* 2. Find or create student *)
              let found :=
                match select_student sroll d with
                | None =>
                    if is_empty sname then None
                    else Some (insert_student sname sroll d)
                | Some s => Some (d, s_id s)
                end in
              match found with
              | None => (InputError, d)
              | Some (d1, student_id) =>
                  (* 3. Check if student already has this book *)
                  if fetched (open_loans k student_id d1)
                  then (AlreadyIssued, d1)
                  else
                    (* 4. Record issue, 5. Decrement book quantity *)
                    (Done, decrement_quantity k
                             (insert_issued k student_id today d1))
              end
        end
    end.

End Issue.

(** ** [ReturnBookFrame] *)

(** A row of the tree: the columns of the [SELECT] in
    [load_issued_books]. *)
Record issued_row := mkRow {
  r_issue_id : Z;
  r_title : string;
  r_name : string;
  r_roll_no : string;
  r_issue_date : string;
  r_book_id : Z
}.

(** [load_issued_books]: open loans joined with their book and student,
    ordered by issue date. *)
Definition load_issued_books (d : db) : list issued_row :=
  order_by r_issue_date
    (flat_map (fun i =>
       flat_map (fun b =>
         map (fun s => mkRow (i_id i) (b_title b) (s_name s) (s_roll_no s)
                             (i_issue_date i) (i_book_id i))
             (filter (fun s => i_student_id i =? s_id s) (students d)))
         (filter (fun b => i_book_id i =? b_id b) (books d)))
       (filter is_open (issued_books d))).

(** [return_book]: [data[0]] and [data[5]] of the focused row feed the two
    [UPDATE]s. *)
Definition return_book (selected : option issued_row) (confirm : bool)
  (today : string) (d : db) : outcome * db :=
  match selected with
  | None => (NoSelection, d)
  | Some data =>
      if confirm then
        (Done, increment_quantity (r_book_id data)
                 (set_return_date (r_issue_id data) today d))
      else (Declined, d)
  end.

(** The tree row of a loan, as [return_book] reads it. *)
Definition row_of (i : issued) (title name roll_no : string) : issued_row :=
  mkRow (i_id i) title name roll_no (i_issue_date i) (i_book_id i).

(** ** Sequences of callbacks *)

Inductive action :=
| SaveBook (title author quantity : string)
| SaveUpdate (book_id : Z) (title author quantity : string)
| DeleteSelected (selected : option book) (confirm : bool)
| IssueBook (book_id roll sname today : string)
| ReturnBook (selected : option issued_row) (confirm : bool) (today : string).

Section Run.

Variable affinity : string -> option Z.

Definition run (a : action) (d : db) : outcome * db :=
  match a with
  | SaveBook t a q => save_book t a q d
  | SaveUpdate k t a q => save_update k t a q d
  | DeleteSelected sel c => delete_selected sel c d
  | IssueBook k r n today => issue_book affinity k r n today d
  | ReturnBook sel c today => return_book sel c today d
  end.

(** The database after the callbacks of [l] ran in order. *)
Definition exec (l : list action) (d : db) : db :=
  fold_left (fun d a => snd (run a d)) l d.

(** A database the application can produce from a fresh file.  The tree
    selections are left arbitrary: the windows only offer rows of the last
    listing, which is a special case. *)
Definition reachable (d : db) : Prop :=
  exists l : list action, d = exec l init_db.

End Run.

(** The affinity on signed decimal integer text that fits 64 bits, the
    texts a book id is typed as. *)
Definition decimal_affinity (s : string) : option Z :=
  match signed false s with
  | Some k => if (- max_int64 - 1 <=? k) && (k <=? max_int64)
              then Some k else None
  | None => None
  end.

(** ** What the listings and the tables are compared with *)

(** [needle] occurs in [text], ASCII letters compared without case. *)
Fixpoint prefix_nocase (needle text : string) : bool :=
  match needle, text with
  | EmptyString, _ => true
  | String _ _, EmptyString => false
  | String a needle', String b text' =>
      Ascii.eqb (lower a) (lower b) && prefix_nocase needle' text'
  end.

Fixpoint contains_nocase (needle text : string) : bool :=
  prefix_nocase needle text
  || match text with
     | EmptyString => false
     | String _ text' => contains_nocase needle text'
     end.

(** The filter holds neither of the two [LIKE] wildcards. *)
Fixpoint plain (s : string) : bool :=
  match s with
  | EmptyString => true
  | String c s' => negb (Ascii.eqb c "%") && negb (Ascii.eqb c "_") && plain s'
  end.

(** Every byte is an ASCII character other than NUL. *)
Fixpoint ascii_text (s : string) : bool :=
  match s with
  | EmptyString => true
  | String c s' => (1 <=? code c) && (code c <=? 127) && ascii_text s'
  end.

(** Some loan row of the book has no return date. *)
Definition on_loan (book_id : Z) (d : db) : Prop :=
  exists i, In i (issued_books d) /\ i_book_id i = book_id
            /\ i_return_date i = None.

(** No book row has this id. *)
Definition no_such_book (book_id : Z) (d : db) : Prop :=
  forall b, In b (books d) -> b_id b <> book_id.

(** The entries of the add and update forms pass the callbacks' checks. *)
Definition well_formed (title author quantity : string) : Prop :=
  strip title <> "" /\ strip author <> "" /\
  exists q, py_int (strip quantity) = Some q /\ 0 <= q <= max_int64.

(** The invariants the callbacks maintain. *)
Record consistent (d : db) : Prop := {
  book_keys : NoDup (map b_id (books d));
  quantity_nonneg : forall b, In b (books d) -> 0 <= b_quantity b;
  student_ids : forall s, In s (students d) -> s_id s <= students_seq d;
  loan_students : forall i, In i (issued_books d) ->
                            i_student_id i <= students_seq d;
  loan_books : forall i, In i (issued_books d) -> i_return_date i = None ->
                         exists b, In b (books d) /\ b_id b = i_book_id i;
  one_open : forall k sid, (List.length (open_loans k sid d) <= 1)%nat
}.

(** ** [ViewIssuedBooksFrame.load_all_issued] *)

(** A row of the history tree: the columns of the [SELECT], the last one
    as it is displayed. *)
Record history_row := mkHistory {
  h_issue_id : Z;
  h_title : string;
  h_name : string;
  h_roll_no : string;
  h_issue_date : string;
  h_returned : string
}.

(** [ORDER BY ... DESC] on a text column; rows with equal keys keep their
    rowid order (SQLite leaves that order open). *)
Definition order_by_desc {A : Type} (key : A -> string) (l : list A)
  : list A :=
  fold_right (insert_sorted (fun x y => String.leb (key y) (key x))) [] l.

(** [display_row[5]]: a missing return date is shown as a placeholder. *)
Definition display_returned (return_date : option string) : string :=
  match return_date with
  | None => "--- Not Returned ---"
  | Some t => t
  end.

(** [load_all_issued]: every loan joined with its book and student, latest
    issue first. *)
Definition load_all_issued (d : db) : list history_row :=
  order_by_desc h_issue_date
    (flat_map (fun i =>
       flat_map (fun b =>
         map (fun s => mkHistory (i_id i) (b_title b) (s_name s)
                                 (s_roll_no s) (i_issue_date i)
                                 (display_returned (i_return_date i)))
             (filter (fun s => i_student_id i =? s_id s) (students d)))
         (filter (fun b => i_book_id i =? b_id b) (books d)))
       (issued_books d)).

(** ** Keys and counters *)

(** What the primary keys, the [UNIQUE] roll number and the foreign key to
    [students] amount to. *)
Record keyed (d : db) : Prop := {
  student_keys : NoDup (map s_id (students d));
  student_rolls : NoDup (map s_roll_no (students d));
  loan_keys : NoDup (map i_id (issued_books d));
  book_ids : forall b, In b (books d) -> b_id b <= books_seq d;
  loan_student_rows :
    forall i, In i (issued_books d) ->
              exists s, In s (students d) /\ s_id s = i_student_id i
}.

(** The copies of a book on the shelf and out with students: its quantity
    plus the number of its open loans. *)
Definition stock (book_id : Z) (d : db) : option Z :=
  option_map (fun b => b_quantity b
                       + Z.of_nat (List.length (open_loans_of_book book_id d)))
             (select_book book_id d).

(** The stored text of a row is what [strip] leaves. *)
Definition trimmed (s : string) : Prop := s <> "" /\ strip s = s.

(** The book row of a loan is still there. *)
Definition has_book (d : db) (i : issued) : bool :=
  match select_book (i_book_id i) d with
  | Some _ => true
  | None => false
  end.

(** A loan row and what became of it: the same loan, and still returned if
    it was. *)
Definition loan_kept (x x' : issued) : Prop :=
  i_id x' = i_id x /\ i_book_id x' = i_book_id x /\
  i_student_id x' = i_student_id x /\ i_issue_date x' = i_issue_date x /\
  (i_return_date x <> None -> i_return_date x' <> None).

(** What the return page shows of a loan, apart from the joined names. *)
Definition row_columns (r : issued_row) : Z * Z * string :=
  (r_issue_id r, r_book_id r, r_issue_date r).

Definition loan_columns (i : issued) : Z * Z * string :=
  (i_id i, i_book_id i, i_issue_date i).

(** What the history page shows of a loan, apart from the joined names. *)
Definition history_columns (h : history_row) : Z * string * string :=
  (h_issue_id h, h_issue_date h, h_returned h).

Definition loan_history (i : issued) : Z * string * string :=
  (i_id i, i_issue_date i, display_returned (i_return_date i)).

(** Every stored title, author, name and roll number is trimmed and not
    empty. *)
Definition tidy (d : db) : Prop :=
  (forall b, In b (books d) -> trimmed (b_title b) /\ trimmed (b_author b))
  /\ (forall s, In s (students d) ->
                trimmed (s_name s) /\ trimmed (s_roll_no s)).

(** ** Sample databases *)

Definition sample_actions : list action :=
  [SaveBook "Dune" "Herbert" "2"; IssueBook "1" "R100" "Alice" "2024-05-01"].

(** One book, one student, one open loan. *)
Definition sample_db : db := exec decimal_affinity sample_actions init_db.

(** [sample_db] after the book was issued to a second, new student. *)
Definition second_db : db :=
  exec decimal_affinity [IssueBook "1" "R200" "Bob" "2024-05-02"] sample_db.

(** The open loan of [sample_db]. *)
Definition sample_loan : issued := mkIssued 1 1 1 "2024-05-01" None.

(** One book and no loan. *)
Definition shelf_db : db :=
  exec decimal_affinity [SaveBook "abc" "Herbert" "1"] init_db.

(** The book of [sample_db] returned and then deleted: its loan row stays
    behind. *)
Definition archive_actions : list action :=
  (sample_actions
   ++ [ReturnBook (Some (row_of sample_loan "Dune" "Alice" "R100")) true
                  "2024-05-09";
       DeleteSelected (Some (mkBook 1 "Dune" "Herbert" 2)) true])%list.

Definition archive_db : db := exec decimal_affinity archive_actions init_db.






(** * Properties *)

(** ** Lists and tables *)

Lemma largest_upper (ids : list Z) (x : Z) : In x ids -> x <= largest ids.
Proof.
  induction ids as [|y ids IH]; simpl; [easy|].
  intros [->|H]; [lia|]. specialize (IH H). lia.
Qed.

Lemma next_rowid_fresh (seq : Z) (ids : list Z) :
  seq < next_rowid seq ids /\ forall x, In x ids -> x < next_rowid seq ids.
Proof.
  unfold next_rowid. split; [lia|].
  intros x H. apply largest_upper in H. lia.
Qed.

Lemma fetched_false {A : Type} (l : list A) : fetched l = false -> l = [].
Proof. destruct l; [reflexivity|discriminate]. Qed.

Lemma fetched_true {A : Type} (l : list A) :
  fetched l = true <-> exists x, In x l.
Proof.
  destruct l as [|x l]; simpl; split; try discriminate.
  - intros [x []].
  - intros _. exists x. now left.
  - reflexivity.
Qed.

Lemma is_empty_true (s : string) : is_empty s = true <-> s = "".
Proof. destruct s; simpl; split; congruence. Qed.

Lemma is_empty_false (s : string) : is_empty s = false <-> s <> "".
Proof. destruct s; simpl; split; congruence. Qed.

Lemma filter_map_length {A : Type} (p : A -> bool) (f : A -> A) (l : list A) :
  (forall x, p (f x) = true -> p x = true) ->
  (List.length (filter p (map f l)) <= List.length (filter p l))%nat.
Proof.
  intros H. induction l as [|x l IH]; simpl; [lia|].
  destruct (p (f x)) eqn:E.
  - rewrite (H _ E). simpl. lia.
  - destruct (p x); simpl; lia.
Qed.

Lemma map_same_key {A : Type} (key : A -> Z) (f : A -> A) (l : list A) :
  (forall x, key (f x) = key x) -> map key (map f l) = map key l.
Proof.
  intros H. rewrite map_map. apply map_ext. exact H.
Qed.

Lemma NoDup_map_filter {A B : Type} (key : A -> B) (p : A -> bool)
  (l : list A) :
  NoDup (map key l) -> NoDup (map key (filter p l)).
Proof.
  induction l as [|x l IH]; simpl; [easy|].
  intros H. inversion H as [|? ? Hx Hl]; subst.
  destruct (p x); simpl; [|now apply IH].
  constructor; [|now apply IH].
  intros Hin. apply Hx. apply in_map_iff in Hin as [y [Hy Hf]].
  apply filter_In in Hf as [Hf _]. apply in_map_iff. now exists y.
Qed.

Lemma NoDup_key_inj {A B : Type} (key : A -> B) (l : list A) (x y : A) :
  NoDup (map key l) -> In x l -> In y l -> key x = key y -> x = y.
Proof.
  induction l as [|z l IH]; simpl; [easy|].
  intros H. inversion H as [|? ? Hz Hl]; subst.
  intros [->|Hx] [->|Hy] E; auto.
  - exfalso. apply Hz. rewrite E. now apply in_map.
  - exfalso. apply Hz. rewrite <- E. now apply in_map.
Qed.

Lemma select_book_some (k : Z) (d : db) (b : book) :
  select_book k d = Some b -> In b (books d) /\ b_id b = k.
Proof.
  unfold select_book. intros H. apply find_some in H as [H1 H2].
  split; [exact H1|]. now apply Z.eqb_eq.
Qed.

Lemma select_book_none (k : Z) (d : db) :
  select_book k d = None <-> no_such_book k d.
Proof.
  unfold select_book, no_such_book. split.
  - intros H b Hb E. apply (find_none _ _ H) in Hb.
    apply Z.eqb_neq in Hb. contradiction.
  - intros H. destruct (find _ _) as [b|] eqn:E; [|reflexivity].
    apply find_some in E as [E1 E2]. apply Z.eqb_eq in E2.
    now apply H in E1.
Qed.

Lemma select_student_some (r : string) (d : db) (s : student) :
  select_student r d = Some s -> In s (students d) /\ s_roll_no s = r.
Proof.
  unfold select_student. intros H. apply find_some in H as [H1 H2].
  split; [exact H1|]. now apply String.eqb_eq.
Qed.

Lemma select_student_none (r : string) (d : db) :
  select_student r d = None <->
  forall s, In s (students d) -> s_roll_no s <> r.
Proof.
  unfold select_student. split.
  - intros H s Hs E. apply (find_none _ _ H) in Hs.
    apply String.eqb_neq in Hs. contradiction.
  - intros H. destruct (find _ _) as [s|] eqn:E; [|reflexivity].
    apply find_some in E as [E1 E2]. apply String.eqb_eq in E2.
    now apply H in E1.
Qed.

Lemma open_loans_in (k sid : Z) (d : db) (i : issued) :
  In i (open_loans k sid d) <->
  In i (issued_books d) /\ i_book_id i = k /\ i_student_id i = sid
  /\ i_return_date i = None.
Proof.
  unfold open_loans. rewrite filter_In, !andb_true_iff, !Z.eqb_eq.
  unfold is_open. destruct (i_return_date i); intuition congruence.
Qed.

Lemma open_loans_of_book_in (k : Z) (d : db) (i : issued) :
  In i (open_loans_of_book k d) <->
  In i (issued_books d) /\ i_book_id i = k /\ i_return_date i = None.
Proof.
  unfold open_loans_of_book. rewrite filter_In, andb_true_iff, Z.eqb_eq.
  unfold is_open. destruct (i_return_date i); intuition congruence.
Qed.

Lemma on_loan_fetched (k : Z) (d : db) :
  fetched (open_loans_of_book k d) = true <-> on_loan k d.
Proof.
  rewrite fetched_true. unfold on_loan.
  split; intros [i H]; exists i; now apply open_loans_of_book_in.
Qed.

(** ** The statements keep the tables consistent *)

Lemma consistent_init : consistent init_db.
Proof.
  split; simpl; try easy; [constructor|].
  intros k sid. unfold open_loans. simpl. lia.
Qed.

Lemma consistent_insert_book (t a : string) (q : Z) (d : db) :
  0 <= q -> consistent d -> consistent (insert_book t a q d).
Proof.
  intros Hq [K Q S LS LB O]. split; simpl; auto.
  - rewrite map_app. simpl. apply NoDup_app; [exact K| |].
    + constructor; [easy|constructor].
    + intros x Hx [<-|[]].
      apply (next_rowid_fresh (books_seq d)) in Hx. lia.
  - intros b Hb. apply in_app_iff in Hb as [Hb|[<-|[]]]; simpl; auto.
  - intros i Hi Ho. destruct (LB i Hi Ho) as [b [Hb E]].
    exists b. split; [|exact E]. apply in_app_iff. now left.
Qed.

Lemma consistent_update_book (k : Z) (t a : string) (q : Z) (d : db) :
  0 <= q -> consistent d -> consistent (update_book k t a q d).
Proof.
  intros Hq [K Q S LS LB O]. split; simpl; auto.
  - rewrite map_same_key; [exact K|].
    intros b. now destruct (b_id b =? k).
  - intros b Hb. apply in_map_iff in Hb as [b0 [<- Hb0]].
    destruct (b_id b0 =? k); simpl; auto.
  - intros i Hi Ho. destruct (LB i Hi Ho) as [b [Hb E]].
    eexists. split; [apply in_map; exact Hb|].
    now destruct (b_id b =? k).
Qed.

Lemma consistent_delete_book (k : Z) (d : db) :
  open_loans_of_book k d = [] -> consistent d -> consistent (delete_book k d).
Proof.
  intros Hk [K Q S LS LB O]. split; simpl; auto.
  - now apply NoDup_map_filter.
  - intros b Hb. apply filter_In in Hb as [Hb _]. auto.
  - intros i Hi Ho. destruct (LB i Hi Ho) as [b [Hb E]].
    exists b. split; [|exact E]. apply filter_In. split; [exact Hb|].
    apply negb_true_iff, Z.eqb_neq. intros E'.
    assert (Hin : In i (open_loans_of_book k d))
      by (apply open_loans_of_book_in; intuition congruence).
    rewrite Hk in Hin. destruct Hin.
Qed.

Lemma sql_plus_one_nonneg (q : Z) : 0 <= q -> 0 <= sql_plus_one q.
Proof.
  unfold sql_plus_one. destruct (_ && _); lia.
Qed.

Lemma sql_minus_one_nonneg (q : Z) : 0 < q -> 0 <= sql_minus_one q.
Proof.
  unfold sql_minus_one. destruct (_ && _); lia.
Qed.

Lemma consistent_change_quantity (f : Z -> Z) (k : Z) (d : db) :
  (forall b, In b (books d) -> b_id b = k -> 0 <= f (b_quantity b)) ->
  consistent d -> consistent (change_quantity f k d).
Proof.
  intros Hk [K Q S LS LB O]. split; simpl; auto.
  - rewrite map_same_key; [exact K|].
    intros b. now destruct (b_id b =? k).
  - intros b Hb. apply in_map_iff in Hb as [b0 [<- Hb0]].
    destruct (b_id b0 =? k) eqn:E; simpl; auto.
    apply Z.eqb_eq in E. auto.
  - intros i Hi Ho. destruct (LB i Hi Ho) as [b [Hb E]].
    eexists. split; [apply in_map; exact Hb|].
    now destruct (b_id b =? k).
Qed.

Lemma consistent_insert_student (n r : string) (d : db) :
  consistent d -> consistent (fst (insert_student n r d)).
Proof.
  intros [K Q S LS LB O]. split; simpl; auto.
  - intros s Hs. apply in_app_iff in Hs as [Hs|[<-|[]]]; simpl; [|lia].
    specialize (S s Hs). unfold next_rowid. lia.
  - intros i Hi. specialize (LS i Hi). unfold next_rowid. lia.
Qed.

Lemma consistent_set_return_date (n : Z) (today : string) (d : db) :
  consistent d -> consistent (set_return_date n today d).
Proof.
  intros [K Q S LS LB O]. split; simpl; auto.
  - intros i Hi. apply in_map_iff in Hi as [i0 [<- Hi0]].
    destruct (i_id i0 =? n); simpl; auto.
  - intros i Hi Ho. apply in_map_iff in Hi as [i0 [<- Hi0]].
    destruct (i_id i0 =? n); simpl in *; [discriminate|auto].
  - intros k sid. specialize (O k sid). unfold open_loans in *. simpl.
    etransitivity; [apply filter_map_length|exact O].
    intros i. destruct (i_id i =? n); simpl; [|easy].
    unfold is_open. simpl. rewrite andb_false_r. discriminate.
Qed.

Lemma consistent_insert_issued (k sid : Z) (today : string) (d : db) :
  (exists b, In b (books d) /\ b_id b = k) ->
  sid <= students_seq d ->
  open_loans k sid d = [] ->
  consistent d -> consistent (insert_issued k sid today d).
Proof.
  intros Hb Hs Hk [K Q S LS LB O]. split; simpl; auto.
  - intros i Hi. apply in_app_iff in Hi as [Hi|[<-|[]]]; simpl; auto.
  - intros i Hi Ho. apply in_app_iff in Hi as [Hi|[<-|[]]]; simpl; auto.
  - intros k' sid'. specialize (O k' sid'). unfold open_loans in *. simpl.
    rewrite filter_app, length_app. simpl.
    destruct (k =? k') eqn:E1; simpl; [|lia].
    destruct (sid =? sid') eqn:E2; simpl; [|lia].
    apply Z.eqb_eq in E1, E2. subst k' sid'. rewrite Hk. simpl. lia.
Qed.

(** ** The callbacks, case by case *)

Section Callbacks.

Variable affinity : string -> option Z.

(** How a book gets issued. *)
Lemma issue_book_done (bid roll name today : string) (d d' : db) :
  issue_book affinity bid roll name today d = (Done, d') ->
  exists k b d1 sid,
    strip bid <> "" /\ strip roll <> "" /\
    affinity (strip bid) = Some k /\ select_book k d = Some b /\
    0 < b_quantity b /\
    ((select_student (strip roll) d = None /\ strip name <> "" /\
      insert_student (strip name) (strip roll) d = (d1, sid)) \/
     (exists s, select_student (strip roll) d = Some s /\ d1 = d /\
                sid = s_id s)) /\
    open_loans k sid d1 = [] /\
    d' = decrement_quantity k (insert_issued k sid today d1).
Proof.
  unfold issue_book.
  destruct (is_empty (strip bid)) eqn:Eb; [discriminate|].
  destruct (is_empty (strip roll)) eqn:Er; [discriminate|]. simpl.
  apply is_empty_false in Eb, Er.
  destruct (affinity (strip bid)) as [k|]; [|discriminate].
  destruct (select_book k d) as [b|] eqn:Ek; [|discriminate].
  destruct (b_quantity b <=? 0) eqn:Eq; [discriminate|].
  apply Z.leb_gt in Eq.
  destruct (select_student (strip roll) d) as [s|] eqn:Es.
  - destruct (fetched (open_loans k (s_id s) d)) eqn:Ef; [discriminate|].
    intros [= <-]. apply fetched_false in Ef.
    exists k, b, d, (s_id s). repeat split; auto. right. now exists s.
  - destruct (is_empty (strip name)) eqn:En; [discriminate|].
    apply is_empty_false in En.
    destruct (insert_student (strip name) (strip roll) d) as [d1 sid] eqn:Ei.
    destruct (fetched (open_loans k sid d1)) eqn:Ef; [discriminate|].
    intros [= <-]. apply fetched_false in Ef.
    exists k, b, d1, sid. repeat split; auto.
Qed.

(** How an issue is refused: nothing was written, unless a student row was
    inserted and committed before the open-loan check refused the issue. *)
Lemma issue_book_refused (bid roll name today : string) (d d' : db)
  (r : outcome) :
  issue_book affinity bid roll name today d = (r, d') -> r <> Done ->
  d' = d \/
  (r = AlreadyIssued /\ select_student (strip roll) d = None /\
   exists k, d' = fst (insert_student (strip name) (strip roll) d) /\
             fetched (open_loans k
                        (snd (insert_student (strip name) (strip roll) d))
                        d') = true).
Proof.
  unfold issue_book.
  destruct (is_empty (strip bid) || is_empty (strip roll));
    [intros [= <- <-]; now left|].
  destruct (affinity (strip bid)) as [k|]; [|intros [= <- <-]; now left].
  destruct (select_book k d) as [b|]; [|intros [= <- <-]; now left].
  destruct (b_quantity b <=? 0); [intros [= <- <-]; now left|].
  destruct (select_student (strip roll) d) as [s|] eqn:Es.
  - destruct (fetched (open_loans k (s_id s) d));
      intros [= <- <-]; [now left|congruence].
  - destruct (is_empty (strip name)); [intros [= <- <-]; now left|].
    destruct (insert_student (strip name) (strip roll) d) as [d1 sid] eqn:Ei.
    destruct (fetched (open_loans k sid d1)) eqn:Ef;
      intros [= <- <-]; [|congruence].
    intros _. right. repeat split. exists k. simpl. now rewrite Ef.
Qed.

(** A student row just inserted holds no loan. *)
Lemma new_student_no_loans (n r : string) (k : Z) (d : db) :
  consistent d ->
  open_loans k (snd (insert_student n r d)) (fst (insert_student n r d)) = [].
Proof.
  intros C. destruct (open_loans _ _ _) as [|i l] eqn:E; [reflexivity|].
  assert (Hi : In i (i :: l)) by now left.
  rewrite <- E in Hi. apply open_loans_in in Hi as [Hi [_ [Hs _]]].
  simpl in Hi, Hs. apply (loan_students d C) in Hi.
  unfold next_rowid in Hs. lia.
Qed.

Lemma issue_book_refused_same (bid roll name today : string) (d d' : db)
  (r : outcome) :
  consistent d ->
  issue_book affinity bid roll name today d = (r, d') -> r <> Done ->
  d' = d.
Proof.
  intros C H Hr.
  destruct (issue_book_refused _ _ _ _ _ _ _ H Hr)
    as [E|[_ [_ [k [E Hf]]]]]; [exact E|].
  subst d'. rewrite (new_student_no_loans _ _ k d C) in Hf. discriminate.
Qed.

Lemma consistent_issue_book (bid roll name today : string) (d : db) :
  consistent d ->
  consistent (snd (issue_book affinity bid roll name today d)).
Proof.
  intros C.
  destruct (issue_book affinity bid roll name today d) as [r d'] eqn:E.
  simpl. destruct r;
    try (rewrite (issue_book_refused_same _ _ _ _ _ _ _ C E); easy).
  apply issue_book_done in E
    as (k & b & d1 & sid & _ & _ & _ & Hb & Hq & Hs & Ho & ->).
  apply select_book_some in Hb as [Hb Hk].
  assert (C1 : consistent d1 /\ sid <= students_seq d1 /\ books d1 = books d).
  { destruct Hs as [(_ & _ & Hi)|(s & Hs & -> & ->)].
    - pose proof (consistent_insert_student (strip name) (strip roll) d C)
        as C1.
      rewrite Hi in C1. simpl in C1. split; [exact C1|].
      unfold insert_student in Hi. injection Hi as <- <-. simpl.
      split; [lia|reflexivity].
    - apply select_student_some in Hs as [Hs _].
      split; [exact C|]. split; [|reflexivity]. now apply (student_ids d C). }
  destruct C1 as (C1 & Hsid & Eb).
  apply consistent_change_quantity.
  - simpl. rewrite Eb. intros b' Hb' Hk'.
    assert (b' = b)
      by (apply (NoDup_key_inj b_id (books d)); auto using book_keys;
          congruence).
    subst b'. now apply sql_minus_one_nonneg.
  - apply consistent_insert_issued; auto.
    exists b. now rewrite Eb.
Qed.

Lemma consistent_run (a : action) (d : db) :
  consistent d -> consistent (snd (run affinity a d)).
Proof.
  intros C. destruct a as [t a q|k t a q|sel c|k r n today|sel c today];
    simpl.
  - unfold save_book.
    destruct (_ || _); [exact C|].
    destruct (py_int _) as [q'|]; [|exact C].
    destruct (q' <? 0) eqn:E; [exact C|].
    destruct (max_int64 <? q'); [exact C|]. simpl.
    apply Z.ltb_ge in E. now apply consistent_insert_book.
  - unfold save_update.
    destruct (_ || _); [exact C|].
    destruct (py_int _) as [q'|]; [|exact C].
    destruct (q' <? 0) eqn:E; [exact C|].
    destruct (max_int64 <? q'); [exact C|]. simpl.
    apply Z.ltb_ge in E. now apply consistent_update_book.
  - unfold delete_selected.
    destruct sel as [row|]; [|exact C].
    destruct c; [|exact C].
    destruct (fetched _) eqn:E; [exact C|]. simpl.
    apply fetched_false in E. now apply consistent_delete_book.
  - now apply consistent_issue_book.
  - unfold return_book.
    destruct sel as [row|]; [|exact C].
    destruct c; [|exact C]. simpl.
    apply consistent_change_quantity.
    + intros b Hb _. simpl in Hb. apply (quantity_nonneg d C) in Hb.
      now apply sql_plus_one_nonneg.
    + now apply consistent_set_return_date.
Qed.

Lemma consistent_exec (l : list action) (d : db) :
  consistent d -> consistent (exec affinity l d).
Proof.
  revert d. induction l as [|a l IH]; intros d C; simpl; [exact C|].
  apply IH. now apply consistent_run.
Qed.

Lemma reachable_consistent (d : db) : reachable affinity d -> consistent d.
Proof.
  intros [l ->]. apply consistent_exec, consistent_init.
Qed.

End Callbacks.

(** ** Quantities, open loans and refusals on reachable databases *)

Lemma reachable_run (affinity : string -> option Z) (a : action) (d : db) :
  reachable affinity d -> reachable affinity (snd (run affinity a d)).
Proof.
  intros [l ->]. exists (l ++ [a])%list. unfold exec.
  now rewrite fold_left_app.
Qed.

(** Without a copy left the issue is refused before anything is written. *)
Lemma issue_book_no_copies (affinity : string -> option Z)
  (bid roll name today : string) (k : Z) (b : book) (d : db) :
  strip bid <> "" -> strip roll <> "" ->
  affinity (strip bid) = Some k -> select_book k d = Some b ->
  b_quantity b <= 0 ->
  issue_book affinity bid roll name today d = (Unavailable, d).
Proof.
  intros Hb Hr Hk Hs Hq. unfold issue_book.
  apply is_empty_false in Hb, Hr. rewrite Hb, Hr, Hk, Hs. simpl.
  apply Z.leb_le in Hq. now rewrite Hq.
Qed.

(** A quantity that is no integer, or a negative one, is refused by both
    forms. *)
Lemma bad_quantity_refused (title author qty : string) (d : db) :
  py_int (strip qty) = None \/
  (exists q, py_int (strip qty) = Some q /\ q < 0) ->
  save_book title author qty d = (InputError, d) /\
  forall k, save_update k title author qty d = (InputError, d).
Proof.
  intros H. unfold save_book, save_update.
  destruct (_ || _); [easy|].
  destruct H as [->|[q [-> Hq]]]; [easy|].
  apply Z.ltb_lt in Hq. now rewrite Hq.
Qed.

(** C1. In every database reached by any sequence of add, update, delete,
    issue and return callbacks, every book has a quantity of at least 0;
    an issue of a book whose quantity is 0 is refused, and the add and
    update forms refuse a quantity that is negative or not an integer. *)
Theorem quantity_never_negative (affinity : string -> option Z) (d : db) :
  reachable affinity d ->
  (forall b, In b (books d) -> 0 <= b_quantity b) /\
  (forall bid roll name today k b,
      strip bid <> "" -> strip roll <> "" ->
      affinity (strip bid) = Some k -> select_book k d = Some b ->
      b_quantity b = 0 ->
      issue_book affinity bid roll name today d = (Unavailable, d)) /\
  (forall title author qty,
      py_int (strip qty) = None \/
      (exists q, py_int (strip qty) = Some q /\ q < 0) ->
      save_book title author qty d = (InputError, d) /\
      forall k, save_update k title author qty d = (InputError, d)).
Proof.
  intros R. apply reachable_consistent in R. repeat split.
  - apply (quantity_nonneg d R).
  - intros bid roll name today k b Hb Hr Hk Hs Hq.
    apply (issue_book_no_copies affinity bid roll name today k b);
      auto; lia.
  - now apply bad_quantity_refused.
  - now apply bad_quantity_refused.
Qed.

Lemma quantity_never_negative_witness :
  (forall b, In b (books sample_db) -> 0 <= b_quantity b) /\
  (forall bid roll name today k b,
      strip bid <> "" -> strip roll <> "" ->
      decimal_affinity (strip bid) = Some k ->
      select_book k sample_db = Some b ->
      b_quantity b = 0 ->
      issue_book decimal_affinity bid roll name today sample_db
      = (Unavailable, sample_db)) /\
  (forall title author qty,
      py_int (strip qty) = None \/
      (exists q, py_int (strip qty) = Some q /\ q < 0) ->
      save_book title author qty sample_db = (InputError, sample_db) /\
      forall k, save_update k title author qty sample_db
                = (InputError, sample_db)).
Proof.
  apply (quantity_never_negative decimal_affinity sample_db).
  exists sample_actions. reflexivity.
Defined.

(** While a student holds an open loan of a book, a further issue of that
    book to that roll number is refused with a conflict. *)
Lemma issue_book_again (affinity : string -> option Z)
  (bid roll name today : string) (k : Z) (s : student) (d : db) :
  consistent d ->
  strip bid <> "" -> strip roll <> "" ->
  affinity (strip bid) = Some k ->
  select_student (strip roll) d = Some s ->
  open_loans k (s_id s) d <> [] ->
  exists r, issue_book affinity bid roll name today d = (r, d) /\
            error_of r = Some ConflictError.
Proof.
  intros C Hb Hr Hk Hs Ho. unfold issue_book.
  apply is_empty_false in Hb, Hr. rewrite Hb, Hr, Hk. simpl.
  destruct (select_book k d) as [b|] eqn:Eb.
  - destruct (b_quantity b <=? 0); [now exists Unavailable|].
    rewrite Hs. destruct (open_loans k (s_id s) d); [easy|].
    now exists AlreadyIssued.
  - exfalso. destruct (open_loans k (s_id s) d) as [|i l] eqn:E; [easy|].
    assert (Hi : In i (open_loans k (s_id s) d)) by (rewrite E; now left).
    apply open_loans_in in Hi as (Hi & Hik & _ & Hio).
    destruct (loan_books d C i Hi Hio) as [b [Hb' E']].
    apply select_book_none in Eb. apply (Eb b Hb'). congruence.
Qed.

Lemma find_app_none {A : Type} (p : A -> bool) (l : list A) (x : A) :
  find p l = None -> p x = true -> find p (l ++ [x]) = Some x.
Proof.
  induction l as [|y l IH]; simpl; intros H Hx; [now rewrite Hx|].
  destruct (p y); [discriminate|auto].
Qed.

(** C2. In every reachable database each (book, student) pair has at most
    one loan row without return date; an issue for a book and roll number
    whose student still holds an open loan of that book is refused with a
    conflict and writes nothing, in particular the second of two issues
    in a row. *)
Theorem one_open_loan_per_pair (affinity : string -> option Z) (d : db) :
  reachable affinity d ->
  (forall k sid, (List.length (open_loans k sid d) <= 1)%nat) /\
  (forall bid roll name today k s,
      strip bid <> "" -> strip roll <> "" ->
      affinity (strip bid) = Some k ->
      select_student (strip roll) d = Some s ->
      open_loans k (s_id s) d <> [] ->
      exists r, issue_book affinity bid roll name today d = (r, d) /\
                error_of r = Some ConflictError) /\
  (forall bid roll name today d1,
      issue_book affinity bid roll name today d = (Done, d1) ->
      forall name' today',
      exists r, issue_book affinity bid roll name' today' d1 = (r, d1) /\
                error_of r = Some ConflictError).
Proof.
  intros R. pose proof (reachable_consistent affinity d R) as C.
  split; [apply (one_open d C)|]. split.
  - intros bid roll name today k s. now apply issue_book_again.
  - intros bid roll name today d1 H name' today'.
    assert (C1 : consistent d1).
    { pose proof (consistent_issue_book affinity bid roll name today d C)
        as C1. now rewrite H in C1. }
    apply issue_book_done in H
      as (k & b & d0 & sid & Hb & Hr & Hk & _ & _ & Hs & _ & ->).
    assert (Hs1 : exists s, select_student (strip roll) d0 = Some s
                            /\ s_id s = sid).
    { destruct Hs as [(Hn & _ & Hi)|(s & Hs & -> & ->)].
      - unfold insert_student in Hi. injection Hi as <- <-.
        exists (mkStudent (next_rowid (students_seq d) (map s_id (students d)))
                          (strip name) (strip roll)).
        split; [|reflexivity].
        unfold select_student. simpl. apply find_app_none; [exact Hn|].
        simpl. apply String.eqb_refl.
      - now exists s. }
    destruct Hs1 as (s & Hs1 & <-).
    destruct (issue_book_again affinity bid roll name' today' k s
                (decrement_quantity k (insert_issued k (s_id s) today d0)))
      as (r & Hr1 & Hr2); auto.
    + unfold open_loans. simpl. rewrite filter_app. simpl.
      rewrite !Z.eqb_refl. simpl. intros E.
      apply app_eq_nil in E as [_ E]. discriminate.
    + exists r. auto.
Qed.

Lemma one_open_loan_per_pair_witness :
  reachable decimal_affinity sample_db /\
  (forall k sid, (List.length (open_loans k sid sample_db) <= 1)%nat) /\
  (forall bid roll name today k s,
      strip bid <> "" -> strip roll <> "" ->
      decimal_affinity (strip bid) = Some k ->
      select_student (strip roll) sample_db = Some s ->
      open_loans k (s_id s) sample_db <> [] ->
      exists r, issue_book decimal_affinity bid roll name today sample_db
                = (r, sample_db) /\
                error_of r = Some ConflictError) /\
  (forall bid roll name today d1,
      issue_book decimal_affinity bid roll name today sample_db
      = (Done, d1) ->
      forall name' today',
      exists r, issue_book decimal_affinity bid roll name' today' d1
                = (r, d1) /\
                error_of r = Some ConflictError).
Proof.
  assert (R : reachable decimal_affinity sample_db)
    by (exists sample_actions; reflexivity).
  split; [exact R|].
  apply (one_open_loan_per_pair decimal_affinity sample_db R).
Defined.

(** C4. On a reachable database a callback that ends in a validation,
    not-found or conflict failure leaves every table as it was; an issue
    of a book with quantity 0 fails with a conflict and writes no loan row,
    no student row and no quantity. *)
Theorem failure_writes_nothing (affinity : string -> option Z) (d : db) :
  reachable affinity d ->
  (forall a r d', run affinity a d = (r, d') -> failed r = true -> d' = d) /\
  (forall bid roll name today k b,
      strip bid <> "" -> strip roll <> "" ->
      affinity (strip bid) = Some k -> select_book k d = Some b ->
      b_quantity b = 0 ->
      exists r, issue_book affinity bid roll name today d = (r, d) /\
                error_of r = Some ConflictError).
Proof.
  intros R. apply reachable_consistent in R. split.
  - intros a r d' H F.
    destruct a as [t a q|k t a q|sel c|k ro n today|sel c today];
      simpl in H.
    + unfold save_book in H.
      destruct (_ || _); [now injection H|].
      destruct (py_int _) as [q'|]; [|now injection H].
      destruct (q' <? 0); [now injection H|].
      destruct (max_int64 <? q'); [now injection H|].
      injection H as <- _. discriminate.
    + unfold save_update in H.
      destruct (_ || _); [now injection H|].
      destruct (py_int _) as [q'|]; [|now injection H].
      destruct (q' <? 0); [now injection H|].
      destruct (max_int64 <? q'); [now injection H|].
      injection H as <- _. discriminate.
    + unfold delete_selected in H.
      destruct sel as [row|]; [|now injection H].
      destruct c; [|now injection H].
      destruct (fetched _); [now injection H|].
      injection H as <- _. discriminate.
    + apply (issue_book_refused_same affinity k ro n today d d' r R H).
      intros ->. discriminate.
    + unfold return_book in H.
      destruct sel as [row|]; [|now injection H].
      destruct c; [|now injection H].
      injection H as <- _. discriminate.
  - intros bid roll name today k b Hb Hr Hk Hs Hq.
    exists Unavailable. split; [|reflexivity].
    apply (issue_book_no_copies affinity bid roll name today k b);
      auto; lia.
Qed.

Lemma failure_writes_nothing_witness :
  reachable decimal_affinity sample_db /\
  (forall a r d', run decimal_affinity a sample_db = (r, d') ->
                  failed r = true -> d' = sample_db) /\
  (forall bid roll name today k b,
      strip bid <> "" -> strip roll <> "" ->
      decimal_affinity (strip bid) = Some k ->
      select_book k sample_db = Some b ->
      b_quantity b = 0 ->
      exists r, issue_book decimal_affinity bid roll name today sample_db
                = (r, sample_db) /\
                error_of r = Some ConflictError).
Proof.
  assert (R : reachable decimal_affinity sample_db)
    by (exists sample_actions; reflexivity).
  split; [exact R|].
  apply (failure_writes_nothing decimal_affinity sample_db R).
Defined.

(** C5. A confirmed delete of a book is refused with a conflict exactly
    when some loan row of that book has no return date, and then the
    tables are untouched; otherwise the book row is gone and every other
    row is kept. *)
Theorem delete_refused_iff_on_loan (row : book) (d : db) :
  let r := fst (delete_selected (Some row) true d) in
  let d' := snd (delete_selected (Some row) true d) in
  (r = CannotDelete <-> on_loan (b_id row) d) /\
  (error_of r = Some ConflictError <-> on_loan (b_id row) d) /\
  (on_loan (b_id row) d -> d' = d) /\
  (~ on_loan (b_id row) d ->
   r = Done /\ no_such_book (b_id row) d' /\
   (forall b, b_id b <> b_id row -> In b (books d') <-> In b (books d)) /\
   students d' = students d /\ issued_books d' = issued_books d).
Proof.
  simpl. pose proof (on_loan_fetched (b_id row) d) as L.
  destruct (fetched (open_loans_of_book (b_id row) d)); simpl.
  - assert (on_loan (b_id row) d) by now apply L.
    repeat split; auto; try contradiction.
  - assert (N : ~ on_loan (b_id row) d)
      by (intros H; apply L in H; discriminate).
    repeat split; try discriminate; try contradiction; auto.
    + intros b Hb. apply filter_In in Hb as [_ Hb].
      now apply negb_true_iff, Z.eqb_neq in Hb.
    + intros Hb. now apply filter_In in Hb.
    + intros Hb. apply filter_In. split; [exact Hb|].
      now apply negb_true_iff, Z.eqb_neq.
Qed.

(** ** Listings *)

Lemma insert_sorted_in {A : Type} (le : A -> A -> bool) (x y : A)
  (l : list A) :
  In y (insert_sorted le x l) <-> y = x \/ In y l.
Proof.
  induction l as [|z l IH]; simpl.
  - intuition.
  - destruct (le x z); simpl; [intuition|]. rewrite IH. intuition.
Qed.

Lemma order_by_in {A : Type} (key : A -> string) (x : A) (l : list A) :
  In x (order_by key l) <-> In x l.
Proof.
  unfold order_by. induction l as [|y l IH]; simpl; [reflexivity|].
  rewrite insert_sorted_in, IH. intuition.
Qed.

(** The rows of the return page are the open loans whose book and student
    rows exist. *)
Lemma load_issued_books_in (row : issued_row) (d : db) :
  In row (load_issued_books d) <->
  exists i b s,
    In i (issued_books d) /\ i_return_date i = None /\
    In b (books d) /\ b_id b = i_book_id i /\
    In s (students d) /\ s_id s = i_student_id i /\
    row = row_of i (b_title b) (s_name s) (s_roll_no s).
Proof.
  unfold load_issued_books. rewrite order_by_in, in_flat_map. split.
  - intros (i & Hi & H). apply filter_In in Hi as [Hi Ho].
    apply in_flat_map in H as (b & Hb & H).
    apply filter_In in Hb as [Hb Eb].
    apply in_map_iff in H as (s & <- & Hs).
    apply filter_In in Hs as [Hs Es].
    apply Z.eqb_eq in Eb, Es. unfold is_open in Ho.
    exists i, b, s. repeat split; auto.
    now destruct (i_return_date i).
  - intros (i & b & s & Hi & Ho & Hb & Eb & Hs & Es & ->).
    exists i. split.
    + apply filter_In. split; [exact Hi|]. unfold is_open. now rewrite Ho.
    + apply in_flat_map. exists b. split.
      * apply filter_In. split; [exact Hb|]. now apply Z.eqb_eq.
      * apply in_map_iff. exists s. split; [reflexivity|].
        apply filter_In. split; [exact Hs|]. now apply Z.eqb_eq.
Qed.

(** ** Issue and return *)

Lemma map_unchanged {A : Type} (f : A -> A) (l : list A) :
  (forall x, In x l -> f x = x) -> map f l = l.
Proof.
  intros H. induction l as [|x l IH]; simpl; [reflexivity|].
  rewrite H by now left. rewrite IH; [reflexivity|].
  intros y Hy. apply H. now right.
Qed.


Lemma sql_minus_one_exact (q : Z) :
  0 < q <= max_int64 -> sql_minus_one q = q - 1.
Proof.
  intros H. unfold sql_minus_one.
  assert (E : (min_int64 <? q) && (q <=? max_int64) = true).
  { apply andb_true_iff. split; [apply Z.ltb_lt|apply Z.leb_le];
      unfold min_int64; lia. }
  now rewrite E.
Qed.

Lemma sql_plus_one_exact (q : Z) :
  0 <= q <= max_int64 -> sql_plus_one q = q + 1.
Proof.
  intros H. unfold sql_plus_one.
  assert (E : (min_int64 <=? q) && (q <=? max_int64) = true).
  { apply andb_true_iff. split; apply Z.leb_le; unfold min_int64; lia. }
  now rewrite E.
Qed.






(** ** Ids the callbacks are given *)

(** The return callback reads the loan id from a row of the return page,
    and such a row always belongs to a stored open loan. *)
Lemma listed_loan_exists (row : issued_row) (d : db) :
  In row (load_issued_books d) ->
  exists i, In i (issued_books d) /\ i_id i = r_issue_id row /\
            i_book_id i = r_book_id row /\ i_return_date i = None.
Proof.
  intros H. apply load_issued_books_in in H
    as (i & b & s & Hi & Ho & _ & _ & _ & _ & ->).
  now exists i.
Qed.

(** ** Student rows *)

(** C8. An issue never changes or removes a student row.  When it succeeds
    for a roll number that no student row carries, exactly one student row
    is appended, with that roll number, the supplied name and a fresh id,
    and the loan refers to it; when a student row already carries the roll
    number, no student row is written whatever name is supplied, and a
    successful issue refers to an existing row with that roll number. *)
Theorem issue_book_student_rows (affinity : string -> option Z)
  (bid roll name today : string) (d d' : db) (r : outcome) :
  issue_book affinity bid roll name today d = (r, d') ->
  ((forall s, In s (students d) -> s_roll_no s <> strip roll) ->
   r = Done ->
   exists sid i,
     students d' = (students d ++
                    [mkStudent sid (strip name) (strip roll)])%list /\
     strip name <> "" /\
     (forall s, In s (students d) -> s_id s < sid) /\
     issued_books d' = (issued_books d ++ [i])%list /\
     i_student_id i = sid) /\
  ((exists s, In s (students d) /\ s_roll_no s = strip roll) ->
   students d' = students d /\
   (r = Done ->
    exists s i, In s (students d) /\ s_roll_no s = strip roll /\
                issued_books d' = (issued_books d ++ [i])%list /\
                i_student_id i = s_id s)).
Proof.
  intros H. split.
  - intros Hn ->. apply select_student_none in Hn.
    apply issue_book_done in H
      as (k & b & d0 & sid & _ & _ & _ & _ & _ & Hs & _ & ->).
    destruct Hs as [(_ & Hname & Hi)|(s & Hs & _)]; [|congruence].
    unfold insert_student in Hi. injection Hi as <- <-. simpl.
    eexists. eexists. repeat split; auto.
    intros s Hs. apply (in_map s_id) in Hs.
    now apply (next_rowid_fresh (students_seq d)) in Hs.
  - intros (s & Hs & Hr).
    assert (Hsome : select_student (strip roll) d <> None).
    { intros E. apply (proj1 (select_student_none _ _) E s Hs Hr). }
    destruct r;
      try (destruct (issue_book_refused _ _ _ _ _ _ _ _ H ltac:(discriminate))
            as [->|(_ & E & _)]; [split; [reflexivity|discriminate]|easy]).
    apply issue_book_done in H
      as (k & b & d0 & sid & _ & _ & _ & _ & _ & Hs' & _ & ->).
    destruct Hs' as [(E & _)|(s0 & Hs0 & -> & ->)]; [easy|].
    simpl. split; [reflexivity|]. intros _.
    apply select_student_some in Hs0 as [Hs0 Hr0].
    exists s0. eexists. repeat split; auto.
Qed.

Lemma issue_book_student_rows_witness :
  issue_book decimal_affinity "1" "R200" "Bob" "2024-05-02" sample_db
  = (Done, second_db) /\
  (forall s, In s (students sample_db) -> s_roll_no s <> "R200") /\
  exists sid i,
    students second_db
    = (students sample_db ++ [mkStudent sid "Bob" "R200"])%list /\
    "Bob" <> "" /\
    (forall s, In s (students sample_db) -> s_id s < sid) /\
    issued_books second_db = (issued_books sample_db ++ [i])%list /\
    i_student_id i = sid.
Proof.
  assert (N : forall s, In s (students sample_db) -> s_roll_no s <> "R200").
  { intros s [<-|[]]. discriminate. }
  split; [reflexivity|]. split; [exact N|].
  apply (proj1 (issue_book_student_rows decimal_affinity
                  "1" "R200" "Bob" "2024-05-02" sample_db second_db Done
                  eq_refl) N eq_refl).
Defined.

(** ** What a return touches *)

Lemma Forall2_map_right {A : Type} (R : A -> A -> Prop) (f : A -> A)
  (l : list A) :
  (forall x, R x (f x)) -> Forall2 R l (map f l).
Proof.
  intros H. induction l as [|x l IH]; simpl; constructor; auto.
Qed.

(** C10. Returning the row of an existing loan writes the return date of
    that loan and the quantity of the book the loan refers to, which gets
    SQLite's [quantity + 1], and nothing else: the loan keeps its id, book,
    student and issue date, every other loan row, every other book row, the
    title and author of the updated book and every student row are as
    before. *)
Theorem return_book_frame (i : issued) (title name roll today : string)
  (d : db) :
  In i (issued_books d) ->
  exists d',
    return_book (Some (row_of i title name roll)) true today d = (Done, d') /\
    students d' = students d /\
    students_seq d' = students_seq d /\ books_seq d' = books_seq d /\
    issued_seq d' = issued_seq d /\
    (exists i', In i' (issued_books d') /\ i_id i' = i_id i /\
                i_return_date i' = Some today) /\
    Forall2 (fun x x' =>
               i_id x' = i_id x /\ i_book_id x' = i_book_id x /\
               i_student_id x' = i_student_id x /\
               i_issue_date x' = i_issue_date x /\
               (i_id x <> i_id i -> x' = x) /\
               (i_id x = i_id i -> i_return_date x' = Some today))
            (issued_books d) (issued_books d') /\
    Forall2 (fun b b' =>
               b_id b' = b_id b /\ b_title b' = b_title b /\
               b_author b' = b_author b /\
               (b_id b <> i_book_id i -> b' = b) /\
               (b_id b = i_book_id i ->
                b_quantity b' = sql_plus_one (b_quantity b)))
            (books d) (books d').
Proof.
  intros Hi. eexists. split; [reflexivity|]. simpl.
  repeat split.
  - eexists. split; [apply in_map; exact Hi|].
    rewrite Z.eqb_refl. now split.
  - apply Forall2_map_right. intros x.
    destruct (i_id x =? i_id i) eqn:E; simpl.
    + apply Z.eqb_eq in E. repeat split; auto. congruence.
    + apply Z.eqb_neq in E. repeat split; auto. congruence.
  - apply Forall2_map_right. intros b.
    destruct (b_id b =? i_book_id i) eqn:E; simpl.
    + apply Z.eqb_eq in E. repeat split; auto. congruence.
    + apply Z.eqb_neq in E. repeat split; auto. congruence.
Qed.

Lemma return_book_frame_witness :
  In sample_loan (issued_books sample_db) /\
  exists d',
    return_book (Some (row_of sample_loan "Dune" "Alice" "R100")) true
                "2024-05-09" sample_db = (Done, d') /\
    students d' = students sample_db /\
    students_seq d' = students_seq sample_db /\
    books_seq d' = books_seq sample_db /\
    issued_seq d' = issued_seq sample_db /\
    (exists i', In i' (issued_books d') /\ i_id i' = i_id sample_loan /\
                i_return_date i' = Some "2024-05-09") /\
    Forall2 (fun x x' =>
               i_id x' = i_id x /\ i_book_id x' = i_book_id x /\
               i_student_id x' = i_student_id x /\
               i_issue_date x' = i_issue_date x /\
               (i_id x <> i_id sample_loan -> x' = x) /\
               (i_id x = i_id sample_loan ->
                i_return_date x' = Some "2024-05-09"))
            (issued_books sample_db) (issued_books d') /\
    Forall2 (fun b b' =>
               b_id b' = b_id b /\ b_title b' = b_title b /\
               b_author b' = b_author b /\
               (b_id b <> i_book_id sample_loan -> b' = b) /\
               (b_id b = i_book_id sample_loan ->
                b_quantity b' = sql_plus_one (b_quantity b)))
            (books sample_db) (books d').
Proof.
  assert (H : In sample_loan (issued_books sample_db))
    by (left; reflexivity).
  split; [exact H|].
  apply (return_book_frame sample_loan "Dune" "Alice" "R100" "2024-05-09"
           sample_db H).
Defined.

(** ** Searching books *)

Lemma scan_end (inside : bool) (t : string) : scan is_empty inside t = true.
Proof.
  revert inside. induction t as [|c t IH]; intros inside; simpl.
  - now rewrite andb_false_r.
  - rewrite IH. apply orb_true_r.
Qed.

Lemma compare_prefix (f t : string) :
  plain f = true -> pattern_compare (f ++ "%") t = prefix_nocase f t.
Proof.
  revert t. induction f as [|c f IH]; intros t H.
  - simpl. rewrite scan_end. now destruct t.
  - simpl in H. apply andb_true_iff in H as [H Hf].
    apply andb_true_iff in H as [H1 H2].
    apply negb_true_iff in H1, H2.
    change (String c f ++ "%")%string with (String c (f ++ "%")).
    simpl. rewrite H1, H2. destruct t as [|x t]; [reflexivity|].
    now rewrite IH.
Qed.

Lemma lower_ascii (c : ascii) : code c <= 127 -> code (lower c) <= 127.
Proof.
  intros H. unfold lower. destruct (_ && _) eqn:E; [|exact H].
  apply andb_true_iff in E as [_ E]. apply Z.leb_le in E.
  unfold code in *. rewrite N_ascii_embedding by lia. lia.
Qed.

Lemma lower_high (c : ascii) : 128 <= code c -> lower c = c.
Proof.
  intros H. unfold lower.
  assert (E : (code c <=? 90) = false) by (apply Z.leb_gt; lia).
  now rewrite E, andb_false_r.
Qed.

(** An ASCII byte never equals a continuation byte. *)
Lemma ascii_not_continuation (c x : ascii) :
  code c <= 127 -> is_continuation x = true ->
  Ascii.eqb (lower c) (lower x) = false.
Proof.
  intros Hc Hx. unfold is_continuation in Hx.
  apply andb_true_iff in Hx as [Hx _]. apply Z.leb_le in Hx.
  rewrite (lower_high x) by exact Hx. apply Ascii.eqb_neq. intros E.
  apply lower_ascii in Hc. rewrite E in Hc. lia.
Qed.

Lemma scan_contains (c : ascii) (f t : string) (inside : bool) :
  code c <= 127 -> plain (String c f) = true ->
  scan (pattern_compare (String c f ++ "%")) inside t
  = contains_nocase (String c f) t.
Proof.
  intros Hc Hp.
  assert (HP : forall u, pattern_compare (String c f ++ "%") u
                         = prefix_nocase (String c f) u)
    by (intros u; now apply compare_prefix).
  revert HP. generalize (pattern_compare (String c f ++ "%")).
  intros P HP. revert inside.
  induction t as [|x t IH]; intros inside.
  - simpl scan. rewrite andb_false_r, HP. reflexivity.
  - simpl scan. rewrite IH, HP. simpl contains_nocase.
    destruct (inside && is_continuation x) eqn:E; [|reflexivity].
    apply andb_true_iff in E as [_ E]. simpl.
    now rewrite (ascii_not_continuation c x Hc E).
Qed.

Lemma c_string_ascii (f s : string) :
  ascii_text f = true -> c_string (f ++ s) = (f ++ c_string s)%string.
Proof.
  induction f as [|c f IH]; intros H; [reflexivity|].
  simpl in H. apply andb_true_iff in H as [H Hf].
  apply andb_true_iff in H as [H _]. apply Z.leb_le in H.
  simpl. assert (E : (code c =? 0) = false) by (apply Z.eqb_neq; lia).
  now rewrite E, IH.
Qed.

(** Between two ["%"] an ASCII filter without wildcards matches exactly the
    titles it occurs in before their first NUL, ASCII letters compared
    without case. *)
Lemma like_contains (f t : string) :
  f <> "" -> ascii_text f = true -> plain f = true ->
  like ("%" ++ f ++ "%") t = contains_nocase f (c_string t).
Proof.
  intros Hne Ha Hp. unfold like.
  change ("%" ++ f ++ "%")%string with (String "%" (f ++ "%")).
  change (c_string (String "%" (f ++ "%")))
    with (String "%" (c_string (f ++ "%"))).
  rewrite (c_string_ascii f "%" Ha).
  change (c_string "%") with "%".
  destruct f as [|c f]; [easy|].
  change (pattern_compare (String "%" (String c f ++ "%")))
    with (scan (pattern_compare (String c f ++ "%")) false).
  apply scan_contains; [|exact Hp].
  simpl in Ha. apply andb_true_iff in Ha as [Ha _].
  apply andb_true_iff in Ha as [_ Ha]. now apply Z.leb_le.
Qed.

Lemma load_books_in (f : string) (d : db) (b : book) :
  In b (load_books f d) <->
  In b (books d) /\ load_books_fails f d = false /\
  (f = "" \/ like ("%" ++ f ++ "%") (b_title b) = true).
Proof.
  unfold load_books. destruct (load_books_fails f d);
    [split; [intros []|intros (_ & E & _); discriminate E]|].
  destruct f as [|c f]; simpl is_empty; cbv iota.
  - rewrite order_by_in. intuition.
  - rewrite order_by_in, filter_In. intuition discriminate.
Qed.

(** The update and delete callbacks read the book id from a row of the
    book list, and such a row always is a stored book. *)
Lemma listed_book_exists (row : book) (f : string) (d : db) :
  In row (load_books f d) -> select_book (b_id row) d <> None.
Proof.
  intros H E. apply load_books_in in H as [H _].
  now apply (proj1 (select_book_none _ _) E row H).
Qed.

Lemma insert_sorted_sorted {A : Type} (key : A -> string) (x : A)
  (l : list A) :
  Sorted (fun a b => String.leb (key a) (key b) = true) l ->
  Sorted (fun a b => String.leb (key a) (key b) = true)
         (insert_sorted (fun a b => String.leb (key a) (key b)) x l).
Proof.
  induction l as [|y l IH]; simpl; intros H.
  - repeat constructor.
  - destruct (String.leb (key x) (key y)) eqn:E.
    + constructor; [exact H|]. now constructor.
    + inversion H as [|? ? Hl Hy]; subst.
      constructor; [now apply IH|].
      assert (Eyx : String.leb (key y) (key x) = true)
        by (destruct (String.leb_total (key x) (key y)); congruence).
      destruct l as [|z l]; simpl; [now constructor|].
      destruct (String.leb (key x) (key z)); constructor; auto.
      now inversion Hy.
Qed.

(** The listing comes in ascending order of the titles, compared byte by
    byte. *)
Lemma load_books_sorted (f : string) (d : db) :
  Sorted (fun a b => String.leb (b_title a) (b_title b) = true)
         (load_books f d).
Proof.
  unfold load_books, order_by.
  destruct (load_books_fails f d); [constructor|].
  destruct (is_empty f);
    match goal with
    | |- Sorted _ (fold_right _ [] ?l) =>
        induction l; simpl; [constructor|now apply insert_sorted_sorted]
    end.
Qed.

Lemma short_filter (f : string) (d : db) :
  Z.of_nat (String.length f) + 2 <= like_pattern_limit ->
  load_books_fails f d = false.
Proof.
  intros H. unfold load_books_fails.
  assert (E : String.length ("%" ++ f ++ "%") = S (String.length f + 1)).
  { simpl. f_equal. induction f as [|c f IH]; simpl; [reflexivity|].
    f_equal. apply IH. simpl in H. lia. }
  rewrite E.
  assert (L : (like_pattern_limit
               <? Z.of_nat (S (String.length f + 1))) = false)
    by (apply Z.ltb_ge; lia).
  now rewrite L, andb_false_r.
Qed.

(** With an ASCII filter free of wildcards and short enough for [LIKE] the
    search lists exactly the books whose title contains it before its first
    NUL. *)
Lemma search_plain_filter (entry : string) (d : db) (b : book) :
  strip entry <> "" -> plain (strip entry) = true ->
  ascii_text (strip entry) = true ->
  Z.of_nat (String.length (strip entry)) + 2 <= like_pattern_limit ->
  In b (search_action entry d) <->
  In b (books d) /\
  contains_nocase (strip entry) (c_string (b_title b)) = true.
Proof.
  intros Hne Hp Ha Hl. unfold search_action.
  rewrite load_books_in, like_contains, short_filter by assumption.
  intuition.
Qed.

(** C9, at the failing input. The search entry ["_"] on a shelf whose only
    book is titled ["abc"] lists that book, although ["_"] does not occur
    in its title: [LIKE] reads the entry as a wildcard. *)
Theorem search_wildcard_entry :
  map b_title (books shelf_db) = ["abc"] /\
  map b_title (search_action "_" shelf_db) = ["abc"] /\
  contains_nocase "_" "abc" = false /\
  map b_title (search_action "%" shelf_db) = ["abc"] /\
  contains_nocase "%" "abc" = false.
Proof. repeat split. Qed.

(** * Further properties of the callbacks *)

(** ** Keys stay unique *)

Lemma NoDup_snoc {A : Type} (l : list A) (x : A) :
  NoDup l -> ~ In x l -> NoDup (l ++ [x]).
Proof.
  intros Hl Hx. apply NoDup_app; [exact Hl|repeat constructor; easy|].
  intros y Hy [<-|[]]. contradiction.
Qed.

Lemma keyed_init : keyed init_db.
Proof. split; simpl; try constructor; easy. Qed.

Lemma keyed_insert_student (n r : string) (d : db) :
  select_student r d = None -> keyed d ->
  keyed (fst (insert_student n r d)).
Proof.
  intros Hn [SK SR LK BI LS]. split; simpl; auto.
  - rewrite map_app. simpl. apply NoDup_snoc; [exact SK|].
    intros H. apply (next_rowid_fresh (students_seq d)) in H. lia.
  - rewrite map_app. simpl. apply NoDup_snoc; [exact SR|].
    intros H. apply in_map_iff in H as (s & Hr & Hs).
    apply (proj1 (select_student_none r d) Hn s Hs Hr).
  - intros i Hi. destruct (LS i Hi) as (s & Hs & E).
    exists s. split; [|exact E]. apply in_app_iff. now left.
Qed.

Lemma keyed_insert_issued (k sid : Z) (today : string) (d : db) :
  (exists s, In s (students d) /\ s_id s = sid) -> keyed d ->
  keyed (insert_issued k sid today d).
Proof.
  intros Hs [SK SR LK BI LS]. split; simpl; auto.
  - rewrite map_app. simpl. apply NoDup_snoc; [exact LK|].
    intros H. apply (next_rowid_fresh (issued_seq d)) in H. lia.
  - intros i Hi. apply in_app_iff in Hi as [Hi|[<-|[]]]; auto.
Qed.

Lemma keyed_change_quantity (f : Z -> Z) (k : Z) (d : db) :
  keyed d -> keyed (change_quantity f k d).
Proof.
  intros [SK SR LK BI LS]. split; simpl; auto.
  intros b Hb. apply in_map_iff in Hb as (b0 & <- & Hb0).
  specialize (BI b0 Hb0). now destruct (b_id b0 =? k).
Qed.

Lemma keyed_set_return_date (n : Z) (today : string) (d : db) :
  keyed d -> keyed (set_return_date n today d).
Proof.
  intros [SK SR LK BI LS]. split; simpl; auto.
  - rewrite map_same_key; [exact LK|].
    intros i. now destruct (i_id i =? n).
  - intros i Hi. apply in_map_iff in Hi as (i0 & <- & Hi0).
    destruct (LS i0 Hi0) as (s & Hs & E). exists s. split; [exact Hs|].
    now destruct (i_id i0 =? n).
Qed.

Lemma keyed_run (affinity : string -> option Z) (a : action) (d : db) :
  keyed d -> keyed (snd (run affinity a d)).
Proof.
  intros K. destruct a as [t a q|k t a q|sel c|k r n today|sel c today];
    simpl.
  - unfold save_book.
    destruct (_ || _); [exact K|].
    destruct (py_int _) as [q'|]; [|exact K].
    destruct (q' <? 0); [exact K|].
    destruct (max_int64 <? q'); [exact K|]. simpl.
    destruct K as [SK SR LK BI LS]. split; simpl; auto.
    intros b Hb. apply in_app_iff in Hb as [Hb|[<-|[]]]; simpl; [|lia].
    specialize (BI b Hb). unfold next_rowid. lia.
  - unfold save_update.
    destruct (_ || _); [exact K|].
    destruct (py_int _) as [q'|]; [|exact K].
    destruct (q' <? 0); [exact K|].
    destruct (max_int64 <? q'); [exact K|]. simpl.
    destruct K as [SK SR LK BI LS]. split; simpl; auto.
    intros b Hb. apply in_map_iff in Hb as (b0 & <- & Hb0).
    specialize (BI b0 Hb0). now destruct (b_id b0 =? k).
  - unfold delete_selected.
    destruct sel as [row|]; [|exact K].
    destruct c; [|exact K].
    destruct (fetched _); [exact K|]. simpl.
    destruct K as [SK SR LK BI LS]. split; simpl; auto.
    intros b Hb. apply filter_In in Hb as [Hb _]. auto.
  - destruct (issue_book affinity k r n today d) as [o d'] eqn:E. simpl.
    destruct o;
      try (destruct (issue_book_refused _ _ _ _ _ _ _ _ E ltac:(discriminate))
            as [->|(_ & Hn & _ & -> & _)];
           [exact K|now apply keyed_insert_student]).
    apply issue_book_done in E
      as (k' & b & d1 & sid & _ & _ & _ & _ & _ & Hs & _ & ->).
    apply keyed_change_quantity, keyed_insert_issued.
    + destruct Hs as [(_ & _ & Hi)|(s & Hs & -> & ->)].
      * unfold insert_student in Hi. injection Hi as <- <-. simpl.
        eexists. split; [apply in_app_iff; right; now left|reflexivity].
      * apply select_student_some in Hs as [Hs _]. now exists s.
    + destruct Hs as [(Hn & _ & Hi)|(s & Hs & -> & ->)]; [|exact K].
      pose proof (keyed_insert_student (strip n) (strip r) d Hn K) as K1.
      now rewrite Hi in K1.
  - unfold return_book.
    destruct sel as [row|]; [|exact K].
    destruct c; [|exact K]. simpl.
    now apply keyed_change_quantity, keyed_set_return_date.
Qed.

Lemma reachable_keyed (affinity : string -> option Z) (d : db) :
  reachable affinity d -> keyed d.
Proof.
  intros [l ->]. unfold exec.
  assert (G : forall d0, keyed d0 ->
                keyed (fold_left (fun d a => snd (run affinity a d)) l d0)).
  { induction l as [|a l IH]; intros d0 K; simpl; [exact K|].
    apply IH. now apply keyed_run. }
  apply G, keyed_init.
Qed.

(** X1. Primary keys, roll numbers and references on reachable databases: the
    ids of each table and the roll numbers are pairwise different, every
    loan refers to a student row, every open loan to a book row. *)
Theorem keys_stay_unique (affinity : string -> option Z) (d : db) :
  reachable affinity d ->
  NoDup (map b_id (books d)) /\
  NoDup (map s_id (students d)) /\
  NoDup (map s_roll_no (students d)) /\
  NoDup (map i_id (issued_books d)) /\
  (forall i, In i (issued_books d) ->
             exists s, select_student (s_roll_no s) d = Some s /\
                       s_id s = i_student_id i) /\
  (forall i, In i (issued_books d) -> i_return_date i = None ->
             exists b, select_book (i_book_id i) d = Some b).
Proof.
  intros R. pose proof (reachable_consistent affinity d R) as C.
  pose proof (reachable_keyed affinity d R) as K.
  repeat split; try apply K; try apply C.
  - intros i Hi. destruct (loan_student_rows d K i Hi) as (s & Hs & E).
    exists s. split; [|exact E].
    destruct (select_student (s_roll_no s) d) as [s'|] eqn:E'.
    + apply select_student_some in E' as [Hs' Hr]. f_equal.
      now apply (NoDup_key_inj s_roll_no (students d));
        auto using student_rolls.
    + exfalso. now apply (proj1 (select_student_none _ _) E' s Hs).
  - intros i Hi Ho. destruct (loan_books d C i Hi Ho) as (b & Hb & E).
    destruct (select_book (i_book_id i) d) as [b'|] eqn:E'.
    + now exists b'.
    + exfalso. now apply (proj1 (select_book_none _ _) E' b Hb).
Qed.

Lemma keys_stay_unique_witness :
  reachable decimal_affinity second_db /\
  NoDup (map b_id (books second_db)) /\
  NoDup (map s_id (students second_db)) /\
  NoDup (map s_roll_no (students second_db)) /\
  NoDup (map i_id (issued_books second_db)) /\
  (forall i, In i (issued_books second_db) ->
             exists s, select_student (s_roll_no s) second_db = Some s /\
                       s_id s = i_student_id i) /\
  (forall i, In i (issued_books second_db) -> i_return_date i = None ->
             exists b, select_book (i_book_id i) second_db = Some b).
Proof.
  assert (R : reachable decimal_affinity second_db).
  { exists (sample_actions
              ++ [IssueBook "1" "R200" "Bob" "2024-05-02"])%list.
    reflexivity. }
  split; [exact R|].
  apply (keys_stay_unique decimal_affinity second_db R).
Defined.

(** ** Adding, updating and deleting books *)

Lemma well_formed_checks (t a q : string) :
  well_formed t a q <->
  is_empty (strip t) || is_empty (strip a) || is_empty (strip q) = false /\
  exists v, py_int (strip q) = Some v /\ (v <? 0) = false
            /\ (max_int64 <? v) = false.
Proof.
  unfold well_formed. rewrite !orb_false_iff, !is_empty_false. split.
  - intros (Ht & Ha & v & Hv & H0 & H1). repeat split; auto.
    + intros E. rewrite E in Hv. discriminate.
    + exists v. rewrite !Z.ltb_ge. auto.
  - intros (((Ht & Ha) & _) & v & Hv & H0 & H1). repeat split; auto.
    exists v. rewrite !Z.ltb_ge in *. auto.
Qed.

(** X2. The add form accepts exactly the entries with a non-blank title and
    author and a quantity that [int] reads as a number from 0 to 2^63-1.
    It then appends one book row holding the trimmed title and author and
    that number under a new id, larger than every id in the table and than
    the last id handed out; looking that id up yields the new row, and
    students and loans are untouched. *)
Theorem save_book_accepts (title author qty : string) (d : db) :
  (fst (save_book title author qty d) = Done <->
   well_formed title author qty) /\
  (fst (save_book title author qty d) <> Done ->
   snd (save_book title author qty d) = d) /\
  (well_formed title author qty ->
   exists n v,
     py_int (strip qty) = Some v /\
     books (snd (save_book title author qty d))
     = (books d ++ [mkBook n (strip title) (strip author) v])%list /\
     books_seq d < n /\ (forall b, In b (books d) -> b_id b < n) /\
     books_seq (snd (save_book title author qty d)) = n /\
     select_book n (snd (save_book title author qty d))
     = Some (mkBook n (strip title) (strip author) v) /\
     students (snd (save_book title author qty d)) = students d /\
     issued_books (snd (save_book title author qty d)) = issued_books d).
Proof.
  pose proof (well_formed_checks title author qty) as W.
  unfold save_book.
  destruct (is_empty (strip title) || is_empty (strip author)
            || is_empty (strip qty)) eqn:E.
  { repeat split; try easy; intros H; apply W in H as [H _]; discriminate. }
  destruct (py_int (strip qty)) as [v|] eqn:Ev.
  2:{ repeat split; try easy; intros H;
      apply W in H as (_ & v & H & _); discriminate. }
  destruct (v <? 0) eqn:E0.
  { repeat split; try easy; intros H;
      apply W in H as (_ & v' & H & H0 & _); congruence. }
  destruct (max_int64 <? v) eqn:E1.
  { repeat split; try easy; intros H;
      apply W in H as (_ & v' & H & _ & H1); congruence. }
  simpl. split; [|split; [easy|]].
  - split; [intros _|reflexivity]. apply W. split; [reflexivity|].
    now exists v.
  - intros _.
    destruct (next_rowid_fresh (books_seq d) (map b_id (books d)))
      as [Hseq Hids].
    exists (next_rowid (books_seq d) (map b_id (books d))), v.
    repeat split; auto.
    + intros b Hb. apply Hids. now apply in_map.
    + unfold select_book. simpl. apply find_app_none.
      * destruct (find _ (books d)) as [b|] eqn:F; [|reflexivity].
        apply find_some in F as [Hb Hk]. apply Z.eqb_eq in Hk.
        apply (in_map b_id) in Hb. apply Hids in Hb. lia.
      * simpl. apply Z.eqb_refl.
Qed.

Lemma select_book_map (g : book -> book) (k : Z) (l : list book) :
  (forall b, b_id (g b) = b_id b) ->
  find (fun b => b_id b =? k) (map g l)
  = option_map g (find (fun b => b_id b =? k) l).
Proof.
  intros H. induction l as [|x l IH]; simpl; [reflexivity|].
  rewrite H. now destruct (b_id x =? k).
Qed.

Lemma select_book_other (g : book -> book) (k k' : Z) (l : list book) :
  (forall b, b_id (g b) = b_id b) -> k' <> k ->
  find (fun b => b_id b =? k')
       (map (fun b => if b_id b =? k then g b else b) l)
  = find (fun b => b_id b =? k') l.
Proof.
  intros G H. induction l as [|x l IH]; simpl; [reflexivity|].
  destruct (b_id x =? k) eqn:E; [|now destruct (b_id x =? k')].
  rewrite G. apply Z.eqb_eq in E.
  assert (E' : (b_id x =? k') = false) by (apply Z.eqb_neq; lia).
  now rewrite E'.
Qed.

(** X3. The update form, on well-formed entries for the id of a stored book,
    overwrites title, author and quantity of that book with the trimmed
    entries, whatever loans of the book are open; the ids of the table, the
    rows under every other id, the students and the loans stay as they
    were. *)
Theorem save_update_overwrites (k : Z) (title author qty : string) (b : book)
  (d : db) :
  select_book k d = Some b -> well_formed title author qty ->
  exists v d',
    py_int (strip qty) = Some v /\
    save_update k title author qty d = (Done, d') /\
    select_book k d' = Some (mkBook k (strip title) (strip author) v) /\
    (forall k', k' <> k -> select_book k' d' = select_book k' d) /\
    map b_id (books d') = map b_id (books d) /\
    books_seq d' = books_seq d /\
    students d' = students d /\ issued_books d' = issued_books d.
Proof.
  intros Hb W. apply well_formed_checks in W as (E & v & Hv & H0 & H1).
  exists v. eexists. split; [exact Hv|].
  unfold save_update. rewrite E, Hv, H0, H1. split; [reflexivity|].
  simpl. repeat split.
  - unfold select_book in *. simpl.
    induction (books d) as [|x l IH]; simpl in *; [discriminate|].
    destruct (b_id x =? k) eqn:Ex; simpl.
    + rewrite Ex. apply Z.eqb_eq in Ex. now rewrite Ex.
    + rewrite Ex. now apply IH.
  - intros k' Hk. unfold select_book. simpl.
    now apply (select_book_other
                 (fun b => mkBook (b_id b) (strip title) (strip author) v)).
  - apply map_same_key. intros x. now destruct (b_id x =? k).
Qed.

Lemma save_update_overwrites_witness :
  select_book 1 sample_db = Some (mkBook 1 "Dune" "Herbert" 1) /\
  well_formed " Emma " "Austen" "0" /\
  exists v d',
    py_int (strip "0") = Some v /\
    save_update 1 " Emma " "Austen" "0" sample_db = (Done, d') /\
    select_book 1 d' = Some (mkBook 1 (strip " Emma ") (strip "Austen") v) /\
    (forall k', k' <> 1 -> select_book k' d' = select_book k' sample_db) /\
    map b_id (books d') = map b_id (books sample_db) /\
    books_seq d' = books_seq sample_db /\
    students d' = students sample_db /\
    issued_books d' = issued_books sample_db.
Proof.
  assert (W : well_formed " Emma " "Austen" "0").
  { repeat split; try discriminate.
    exists 0. split; [reflexivity|]. unfold max_int64. lia. }
  split; [reflexivity|]. split; [exact W|].
  apply (save_update_overwrites 1 " Emma " "Austen" "0"
           (mkBook 1 "Dune" "Herbert" 1) sample_db eq_refl W).
Defined.

(** What a callback does to the book ids: the counter of handed-out ids
    never goes down, and a book id of the new table is one of the old
    table or lies above the old counter. *)
Lemma run_book_ids (affinity : string -> option Z) (a : action) (d : db) :
  books_seq d <= books_seq (snd (run affinity a d)) /\
  forall b', In b' (books (snd (run affinity a d))) ->
             (exists b, In b (books d) /\ b_id b = b_id b')
             \/ books_seq d < b_id b'.
Proof.
  assert (Same : forall d' : db,
             books_seq d' = books_seq d ->
             (forall b', In b' (books d') ->
                         exists b, In b (books d) /\ b_id b = b_id b') ->
             books_seq d <= books_seq d' /\
             forall b', In b' (books d') ->
                        (exists b, In b (books d) /\ b_id b = b_id b')
                        \/ books_seq d < b_id b').
  { intros d' E H. split; [lia|]. intros b' Hb'. left. auto. }
  assert (Id : forall b', In b' (books d) ->
                          exists b, In b (books d) /\ b_id b = b_id b')
    by (intros b' Hb'; now exists b').
  assert (Map : forall (g : book -> book) b',
             (forall b, b_id (g b) = b_id b) ->
             In b' (map g (books d)) ->
             exists b, In b (books d) /\ b_id b = b_id b').
  { intros g b' G Hb'. apply in_map_iff in Hb' as (b & <- & Hb).
    exists b. now rewrite G. }
  destruct a as [t a q|k t a q|sel c|k r n today|sel c today]; simpl.
  - unfold save_book.
    destruct (_ || _); [now apply Same|].
    destruct (py_int _) as [q'|]; [|now apply Same].
    destruct (q' <? 0); [now apply Same|].
    destruct (max_int64 <? q'); [now apply Same|]. simpl.
    split; [unfold next_rowid; lia|].
    intros b' Hb'. apply in_app_iff in Hb' as [Hb'|[<-|[]]]; simpl.
    + left. now exists b'.
    + right. unfold next_rowid. lia.
  - unfold save_update.
    destruct (_ || _); [now apply Same|].
    destruct (py_int _) as [q'|]; [|now apply Same].
    destruct (q' <? 0); [now apply Same|].
    destruct (max_int64 <? q'); [now apply Same|]. cbn [snd].
    apply Same; [reflexivity|]. simpl. intros b'. apply Map.
    intros b. now destruct (b_id b =? k).
  - unfold delete_selected.
    destruct sel as [row|]; [|now apply Same].
    destruct c; [|now apply Same].
    destruct (fetched _); [now apply Same|]. cbn [snd].
    apply Same; [reflexivity|]. simpl. intros b' Hb'.
    apply filter_In in Hb' as [Hb' _]. now exists b'.
  - destruct (issue_book affinity k r n today d) as [o d'] eqn:E. simpl.
    destruct o;
      try (destruct (issue_book_refused _ _ _ _ _ _ _ _ E ltac:(discriminate))
            as [->|(_ & _ & _ & -> & _)]; now apply Same).
    apply issue_book_done in E
      as (k' & b & d1 & sid & _ & _ & _ & _ & _ & Hs & _ & ->).
    assert (E1 : books d1 = books d /\ books_seq d1 = books_seq d).
    { destruct Hs as [(_ & _ & Hi)|(s & _ & -> & _)]; [|easy].
      unfold insert_student in Hi. now injection Hi as <- _. }
    destruct E1 as [E1 E2]. apply Same; simpl; [exact E2|].
    rewrite E1. intros b'. apply Map.
    intros x. now destruct (b_id x =? k').
  - unfold return_book.
    destruct sel as [row|]; [|now apply Same].
    destruct c; [|now apply Same]. cbn [snd].
    apply Same; [reflexivity|]. simpl. intros b'. apply Map.
    intros x. now destruct (b_id x =? r_book_id row).
Qed.

(** X4. The id of a deleted book is never given out again: once a listed book
    has been deleted, no later sequence of callbacks produces a book row
    with its id. *)
Theorem deleted_id_never_reused (affinity : string -> option Z)
  (filter_text : string) (row : book) (d d1 : db) (l : list action) :
  reachable affinity d ->
  In row (load_books filter_text d) ->
  delete_selected (Some row) true d = (Done, d1) ->
  no_such_book (b_id row) (exec affinity l d1).
Proof.
  intros R Hrow H. apply reachable_keyed in R.
  apply load_books_in in Hrow as [Hrow _].
  assert (P1 : b_id row <= books_seq d1 /\ no_such_book (b_id row) d1).
  { unfold delete_selected in H.
    destruct (fetched _); [discriminate|]. injection H as <-. simpl.
    split; [now apply (book_ids d R)|].
    intros b Hb. apply filter_In in Hb as [_ Hb].
    now apply negb_true_iff, Z.eqb_neq in Hb. }
  clear H. revert d1 P1. unfold exec.
  induction l as [|a l IH]; intros d1 [Hseq Hno]; simpl; [exact Hno|].
  apply IH. destruct (run_book_ids affinity a d1) as [Hle Hids].
  split; [lia|]. intros b' Hb' E.
  destruct (Hids b' Hb') as [(b & Hb & Eb)|Hgt]; [|lia].
  apply (Hno b Hb). congruence.
Qed.

Lemma deleted_id_never_reused_witness :
  reachable decimal_affinity shelf_db /\
  In (mkBook 1 "abc" "Herbert" 1) (load_books "" shelf_db) /\
  delete_selected (Some (mkBook 1 "abc" "Herbert" 1)) true shelf_db
  = (Done, delete_book 1 shelf_db) /\
  no_such_book 1
    (exec decimal_affinity [SaveBook "Emma" "Austen" "3"]
          (delete_book 1 shelf_db)).
Proof.
  assert (R : reachable decimal_affinity shelf_db)
    by (exists [SaveBook "abc" "Herbert" "1"]; reflexivity).
  assert (L : In (mkBook 1 "abc" "Herbert" 1) (load_books "" shelf_db))
    by (left; reflexivity).
  split; [exact R|]. split; [exact L|]. split; [reflexivity|].
  apply (deleted_id_never_reused decimal_affinity ""
           (mkBook 1 "abc" "Herbert" 1) shelf_db (delete_book 1 shelf_db)
           [SaveBook "Emma" "Austen" "3"] R L eq_refl).
Defined.

(** ** The three listings *)

Lemma insert_sorted_perm {A : Type} (le : A -> A -> bool) (x : A)
  (l : list A) :
  Permutation (insert_sorted le x l) (x :: l).
Proof.
  induction l as [|y l IH]; simpl; [reflexivity|].
  destruct (le x y); [reflexivity|].
  rewrite IH. apply perm_swap.
Qed.

Lemma sort_perm {A : Type} (le : A -> A -> bool) (l : list A) :
  Permutation (fold_right (insert_sorted le) [] l) l.
Proof.
  induction l as [|x l IH]; simpl; [reflexivity|].
  rewrite insert_sorted_perm. now constructor.
Qed.

Lemma sort_sorted {A : Type} (le : A -> A -> bool) (l : list A) :
  (forall a b, le a b = false -> le b a = true) ->
  Sorted (fun a b => le a b = true) (fold_right (insert_sorted le) [] l).
Proof.
  intros T. induction l as [|x l IH]; simpl; [constructor|].
  revert IH. generalize (fold_right (insert_sorted le) [] l). clear l.
  intros l. induction l as [|y l IH]; simpl; intros H.
  - repeat constructor.
  - destruct (le x y) eqn:E.
    + constructor; [exact H|]. now constructor.
    + inversion H as [|? ? Hl Hy]; subst.
      constructor; [now apply IH|].
      destruct l as [|z l]; simpl; [constructor; now apply T|].
      destruct (le x z); constructor; auto.
      now inversion Hy.
Qed.

Lemma leb_flip_total (a b : string) :
  String.leb b a = false -> String.leb a b = true.
Proof.
  intros H. destruct (String.leb_total a b); congruence.
Qed.

Lemma contains_empty (t : string) : contains_nocase "" t = true.
Proof. now destruct t. Qed.

Lemma filter_all {A : Type} (p : A -> bool) (l : list A) :
  (forall x, p x = true) -> filter p l = l.
Proof.
  intros H. induction l as [|x l IH]; simpl; [reflexivity|].
  now rewrite H, IH.
Qed.

(** X5. For a search entry that after trimming is ASCII without NUL and
    without [LIKE] wildcards, and of at most 49998 bytes, blank entries
    included, the books listed are the stored books whose title contains
    the trimmed entry before the title's first NUL, ASCII letters compared
    without case, each as often as it is stored, in ascending order of the
    titles compared byte by byte. *)
Theorem search_sorted_matches (entry : string) (d : db) :
  plain (strip entry) = true ->
  ascii_text (strip entry) = true ->
  Z.of_nat (String.length (strip entry)) + 2 <= like_pattern_limit ->
  Sorted (fun a b => String.leb (b_title a) (b_title b) = true)
         (search_action entry d) /\
  Permutation (search_action entry d)
    (filter (fun b => contains_nocase (strip entry) (c_string (b_title b)))
            (books d)).
Proof.
  intros H Ha Hl. split; [apply load_books_sorted|].
  unfold search_action, load_books, order_by.
  rewrite (short_filter (strip entry) d Hl).
  destruct (is_empty (strip entry)) eqn:E.
  - apply is_empty_true in E. rewrite E.
    rewrite (filter_all _ (books d)) by (intros b; apply contains_empty).
    apply sort_perm.
  - rewrite sort_perm. apply is_empty_false in E.
    erewrite filter_ext; [reflexivity|].
    intros b. now apply like_contains.
Qed.

Lemma search_sorted_matches_witness :
  plain (strip " AB ") = true /\
  ascii_text (strip " AB ") = true /\
  Z.of_nat (String.length (strip " AB ")) + 2 <= like_pattern_limit /\
  Sorted (fun a b => String.leb (b_title a) (b_title b) = true)
         (search_action " AB " shelf_db) /\
  Permutation (search_action " AB " shelf_db)
    (filter (fun b => contains_nocase (strip " AB ")
                        (c_string (b_title b)))
            (books shelf_db)).
Proof.
  assert (L : Z.of_nat (String.length (strip " AB ")) + 2
              <= like_pattern_limit)
    by (vm_compute; discriminate).
  split; [reflexivity|]. split; [reflexivity|]. split; [exact L|].
  apply (search_sorted_matches " AB " shelf_db eq_refl eq_refl L).
Defined.

Lemma filter_key_none {A : Type} (key : A -> Z) (k : Z) (l : list A) :
  (forall y, In y l -> key y <> k) -> filter (fun y => k =? key y) l = [].
Proof.
  induction l as [|y l IH]; simpl; intros H; [reflexivity|].
  assert (E : (k =? key y) = false)
    by (apply Z.eqb_neq; intros E; apply (H y); auto).
  rewrite E. apply IH. intros z Hz. apply H. now right.
Qed.

Lemma filter_key_unique {A : Type} (key : A -> Z) (k : Z) (l : list A)
  (x : A) :
  NoDup (map key l) -> In x l -> key x = k ->
  filter (fun y => k =? key y) l = [x].
Proof.
  induction l as [|y l IH]; simpl; intros N Hx Hk; [easy|].
  inversion N as [|? ? Hy Hl]; subst.
  destruct Hx as [->|Hx].
  - rewrite Z.eqb_refl. f_equal. apply filter_key_none.
    intros z Hz E. apply Hy. rewrite <- E. now apply in_map.
  - assert (E : (key x =? key y) = false).
    { apply Z.eqb_neq. intros E. apply Hy. rewrite <- E. now apply in_map. }
    rewrite E. now apply IH.
Qed.

(** The join of one loan with the books and the students: one row when the
    book row exists, none when it was deleted. *)
Lemma join_loan {R : Type} (mk : book -> student -> R) (i : issued)
  (d : db) :
  NoDup (map b_id (books d)) -> NoDup (map s_id (students d)) ->
  (exists s, In s (students d) /\ s_id s = i_student_id i) ->
  flat_map (fun b =>
              map (mk b)
                  (filter (fun s => i_student_id i =? s_id s) (students d)))
           (filter (fun b => i_book_id i =? b_id b) (books d))
  = if has_book d i
    then match select_book (i_book_id i) d,
               find (fun s => s_id s =? i_student_id i) (students d) with
         | Some b, Some s => [mk b s]
         | _, _ => []
         end
    else [].
Proof.
  intros NB NS (s & Hs & Es). unfold has_book.
  destruct (select_book (i_book_id i) d) as [b|] eqn:Eb.
  - apply select_book_some in Eb as [Hb Ek].
    rewrite (filter_key_unique b_id _ _ b NB Hb Ek).
    rewrite (filter_key_unique s_id _ _ s NS Hs Es). simpl.
    destruct (find _ (students d)) as [s'|] eqn:F.
    + apply find_some in F as [Hs' E']. apply Z.eqb_eq in E'.
      assert (s' = s)
        by (apply (NoDup_key_inj s_id (students d)); auto; congruence).
      now subst.
    + exfalso. apply (find_none _ _ F) in Hs.
      apply Z.eqb_neq in Hs. contradiction.
  - rewrite (filter_key_none b_id (i_book_id i) (books d)); [reflexivity|].
    intros b Hb E. apply (proj1 (select_book_none _ _) Eb b Hb E).
Qed.

Lemma join_columns {R C : Type} (mk : issued -> book -> student -> R)
  (col : R -> C) (col' : issued -> C) (d : db) (l : list issued) :
  NoDup (map b_id (books d)) -> NoDup (map s_id (students d)) ->
  (forall i, In i l ->
             exists s, In s (students d) /\ s_id s = i_student_id i) ->
  (forall i b s, col (mk i b s) = col' i) ->
  map col
    (flat_map (fun i =>
       flat_map (fun b =>
         map (mk i b)
             (filter (fun s => i_student_id i =? s_id s) (students d)))
         (filter (fun b => i_book_id i =? b_id b) (books d))) l)
  = map col' (filter (has_book d) l).
Proof.
  intros NB NS HS Hc. induction l as [|i l IH]; simpl; [reflexivity|].
  rewrite map_app, IH by (intros j Hj; apply HS; now right).
  rewrite (join_loan (mk i) i d NB NS) by (apply HS; now left).
  pose proof (HS i (or_introl eq_refl)) as (s & Hs & Es).
  unfold has_book. destruct (select_book (i_book_id i) d) as [b|];
    [|reflexivity].
  destruct (find _ (students d)) as [s'|] eqn:F.
  - simpl. now rewrite Hc.
  - exfalso. apply (find_none _ _ F) in Hs.
    apply Z.eqb_neq in Hs. contradiction.
Qed.

Lemma filter_all_in {A : Type} (p : A -> bool) (l : list A) :
  (forall x, In x l -> p x = true) -> filter p l = l.
Proof.
  intros H. induction l as [|x l IH]; simpl; [reflexivity|].
  rewrite H by now left. rewrite IH; [reflexivity|].
  intros y Hy. apply H. now right.
Qed.

(** X6. On a reachable database the return page offers every open loan exactly
    once, with its loan id, book id and issue date, and nothing else, in
    ascending order of the issue dates. *)
Theorem return_page_lists_open_loans (affinity : string -> option Z)
  (d : db) :
  reachable affinity d ->
  Sorted (fun a b => String.leb (r_issue_date a) (r_issue_date b) = true)
         (load_issued_books d) /\
  Permutation (map row_columns (load_issued_books d))
              (map loan_columns (filter is_open (issued_books d))).
Proof.
  intros R. pose proof (reachable_consistent affinity d R) as C.
  pose proof (reachable_keyed affinity d R) as K.
  unfold load_issued_books, order_by. split.
  - apply (sort_sorted
             (fun x y => String.leb (r_issue_date x) (r_issue_date y))).
    intros a b H. destruct (String.leb_total (r_issue_date a)
                                             (r_issue_date b)); congruence.
  - rewrite sort_perm.
    rewrite (join_columns
               (fun i b s => mkRow (i_id i) (b_title b) (s_name s)
                                   (s_roll_no s) (i_issue_date i)
                                   (i_book_id i))
               row_columns loan_columns d).
    + rewrite filter_all_in; [reflexivity|].
      intros i Hi. apply filter_In in Hi as [Hi Ho].
      unfold is_open in Ho. unfold has_book.
      destruct (i_return_date i) eqn:E; [discriminate|].
      destruct (loan_books d C i Hi E) as (b & Hb & Eb).
      destruct (select_book (i_book_id i) d) eqn:E'; [reflexivity|].
      exfalso. apply (proj1 (select_book_none _ _) E' b Hb Eb).
    + apply (book_keys d C).
    + apply (student_keys d K).
    + intros i Hi. apply filter_In in Hi as [Hi _].
      now apply (loan_student_rows d K).
    + reflexivity.
Qed.

Lemma return_page_lists_open_loans_witness :
  reachable decimal_affinity second_db /\
  Sorted (fun a b => String.leb (r_issue_date a) (r_issue_date b) = true)
         (load_issued_books second_db) /\
  Permutation (map row_columns (load_issued_books second_db))
              (map loan_columns (filter is_open (issued_books second_db))).
Proof.
  assert (R : reachable decimal_affinity second_db).
  { exists (sample_actions
              ++ [IssueBook "1" "R200" "Bob" "2024-05-02"])%list.
    reflexivity. }
  split; [exact R|].
  apply (return_page_lists_open_loans decimal_affinity second_db R).
Defined.

(** X7. On a reachable database the history page shows, latest issue first,
    exactly the loans whose book row still exists, each once, with its id,
    issue date and return date, the placeholder standing for a missing
    return date; loans of a deleted book are left out although their rows
    are kept, and an open loan is never left out. *)
Theorem history_lists_loans_with_book (affinity : string -> option Z)
  (d : db) :
  reachable affinity d ->
  Sorted (fun a b => String.leb (h_issue_date b) (h_issue_date a) = true)
         (load_all_issued d) /\
  Permutation (map history_columns (load_all_issued d))
              (map loan_history (filter (has_book d) (issued_books d))) /\
  (forall i, In i (issued_books d) -> i_return_date i = None ->
             has_book d i = true).
Proof.
  intros R. pose proof (reachable_consistent affinity d R) as C.
  pose proof (reachable_keyed affinity d R) as K.
  unfold load_all_issued, order_by_desc. split; [|split].
  - apply (sort_sorted
             (fun x y => String.leb (h_issue_date y) (h_issue_date x))).
    intros a b. apply leb_flip_total.
  - rewrite sort_perm.
    rewrite (join_columns
               (fun i b s => mkHistory (i_id i) (b_title b) (s_name s)
                               (s_roll_no s) (i_issue_date i)
                               (display_returned (i_return_date i)))
               history_columns loan_history d); [reflexivity| | | |].
    + apply (book_keys d C).
    + apply (student_keys d K).
    + apply (loan_student_rows d K).
    + reflexivity.
  - intros i Hi E. unfold has_book.
    destruct (loan_books d C i Hi E) as (b & Hb & Eb).
    destruct (select_book (i_book_id i) d) eqn:E'; [reflexivity|].
    exfalso. apply (proj1 (select_book_none _ _) E' b Hb Eb).
Qed.

Lemma history_lists_loans_with_book_witness :
  reachable decimal_affinity archive_db /\
  List.length (issued_books archive_db) = 1%nat /\
  load_all_issued archive_db = [] /\
  Sorted (fun a b => String.leb (h_issue_date b) (h_issue_date a) = true)
         (load_all_issued archive_db) /\
  Permutation (map history_columns (load_all_issued archive_db))
              (map loan_history
                   (filter (has_book archive_db) (issued_books archive_db)))
  /\
  (forall i, In i (issued_books archive_db) -> i_return_date i = None ->
             has_book archive_db i = true).
Proof.
  assert (R : reachable decimal_affinity archive_db)
    by (exists archive_actions; reflexivity).
  split; [exact R|]. split; [reflexivity|]. split; [reflexivity|].
  apply (history_lists_loans_with_book decimal_affinity archive_db R).
Defined.

(** ** Returning a listed loan *)

(** X8. After a confirmed return the return page shows the rows it showed
    before, except those of the returned loan: a returned loan is not
    offered again. *)
Theorem returned_loan_is_unlisted (row row' : issued_row) (today : string)
  (d : db) :
  In row' (load_issued_books (snd (return_book (Some row) true today d)))
  <-> In row' (load_issued_books d) /\ r_issue_id row' <> r_issue_id row.
Proof.
  simpl. rewrite !load_issued_books_in. simpl. split.
  - intros (i' & b' & s & Hi & Ho & Hb & Eb & Hs & Es & ->).
    apply in_map_iff in Hi as (i & <- & Hi).
    apply in_map_iff in Hb as (b & <- & Hb).
    destruct (i_id i =? r_issue_id row) eqn:E; [discriminate|].
    apply Z.eqb_neq in E. split; [|exact E].
    exists i, b, s. repeat split; auto.
    + revert Eb. now destruct (b_id b =? r_book_id row).
    + now destruct (b_id b =? r_book_id row).
  - intros ((i & b & s & Hi & Ho & Hb & Eb & Hs & Es & ->) & E).
    simpl in E. apply Z.eqb_neq in E.
    exists i.
    exists (if b_id b =? r_book_id row
            then mkBook (b_id b) (b_title b) (b_author b)
                        (sql_plus_one (b_quantity b))
            else b), s.
    repeat split; auto.
    + apply in_map_iff. exists i. now rewrite E.
    + apply in_map_iff. now exists b.
    + now destruct (b_id b =? r_book_id row).
    + now destruct (b_id b =? r_book_id row).
Qed.

(** ** Rows that are never lost *)

Lemma loan_kept_refl (x : issued) : loan_kept x x.
Proof. now repeat split. Qed.

Lemma loan_kept_trans (x y z : issued) :
  loan_kept x y -> loan_kept y z -> loan_kept x z.
Proof.
  intros (A1 & A2 & A3 & A4 & A5) (B1 & B2 & B3 & B4 & B5).
  repeat split; try congruence. auto.
Qed.

Lemma Forall2_loan_kept_trans (l1 l2 l3 : list issued) :
  Forall2 loan_kept l1 l2 -> Forall2 loan_kept l2 l3 ->
  Forall2 loan_kept l1 l3.
Proof.
  intros H. revert l3. induction H as [|x y l1 l2 Hxy H IH]; intros l3 H3.
  - inversion H3. constructor.
  - inversion H3 as [|? z ? l3' Hyz H3']; subst.
    constructor; [now apply (loan_kept_trans x y z)|now apply IH].
Qed.

Lemma Forall2_loan_kept_refl (l : list issued) : Forall2 loan_kept l l.
Proof. induction l; constructor; auto using loan_kept_refl. Qed.

(** One callback keeps every student row and every loan row. *)
Lemma run_keeps_rows (affinity : string -> option Z) (a : action) (d : db) :
  (exists rest, students (snd (run affinity a d))
                = (students d ++ rest)%list) /\
  (exists kept rest,
      issued_books (snd (run affinity a d)) = (kept ++ rest)%list /\
      Forall2 loan_kept (issued_books d) kept).
Proof.
  assert (Same : forall d' : db,
             students d' = students d -> issued_books d' = issued_books d ->
             (exists rest, students d' = (students d ++ rest)%list) /\
             (exists kept rest,
                 issued_books d' = (kept ++ rest)%list /\
                 Forall2 loan_kept (issued_books d) kept)).
  { intros d' Es Ei. split.
    - exists []. now rewrite app_nil_r.
    - exists (issued_books d), []. rewrite app_nil_r. split; [exact Ei|].
      apply Forall2_loan_kept_refl. }
  destruct a as [t a q|k t a q|sel c|k r n today|sel c today]; simpl.
  - unfold save_book.
    destruct (_ || _); [now apply Same|].
    destruct (py_int _) as [q'|]; [|now apply Same].
    destruct (q' <? 0); [now apply Same|].
    destruct (max_int64 <? q'); now apply Same.
  - unfold save_update.
    destruct (_ || _); [now apply Same|].
    destruct (py_int _) as [q'|]; [|now apply Same].
    destruct (q' <? 0); [now apply Same|].
    destruct (max_int64 <? q'); now apply Same.
  - unfold delete_selected.
    destruct sel as [row|]; [|now apply Same].
    destruct c; [|now apply Same].
    destruct (fetched _); now apply Same.
  - destruct (issue_book affinity k r n today d) as [o d'] eqn:E. simpl.
    pose proof (Forall2_loan_kept_refl (issued_books d)) as Ref.
    destruct o;
      try (destruct (issue_book_refused _ _ _ _ _ _ _ _ E ltac:(discriminate))
            as [->|(_ & _ & _ & -> & _)];
           [now apply Same|
            split; [now eexists|];
            exists (issued_books d), []; now rewrite app_nil_r]).
    apply issue_book_done in E
      as (k' & b & d1 & sid & _ & _ & _ & _ & _ & Hs & _ & ->).
    simpl. destruct Hs as [(_ & _ & Hi)|(s & _ & -> & _)].
    + unfold insert_student in Hi. injection Hi as <- _. simpl.
      split; [now eexists|]. now eexists; eexists.
    + split; [exists []; now rewrite app_nil_r|]. now eexists; eexists.
  - unfold return_book.
    destruct sel as [row|]; [|now apply Same].
    destruct c; [|now apply Same]. simpl.
    split; [exists []; now rewrite app_nil_r|].
    eexists. exists []. rewrite app_nil_r. split; [reflexivity|].
    apply Forall2_map_right. intros x.
    destruct (i_id x =? r_issue_id row); [|apply loan_kept_refl].
    now repeat split.
Qed.

(** X9. Whatever callbacks run, in whatever order, no student row and no loan
    row is ever removed or rewritten, except that a loan may get a return
    date: the students table only grows at its end, every loan keeps its
    id, book, student and issue date, and a returned loan stays returned. *)
Theorem rows_are_kept (affinity : string -> option Z) (l : list action)
  (d : db) :
  (exists rest, students (exec affinity l d) = (students d ++ rest)%list) /\
  (exists kept rest,
      issued_books (exec affinity l d) = (kept ++ rest)%list /\
      Forall2 loan_kept (issued_books d) kept).
Proof.
  revert d. unfold exec. induction l as [|a l IH]; intros d; simpl.
  - split; [exists []; now rewrite app_nil_r|].
    exists (issued_books d), []. rewrite app_nil_r. split; [reflexivity|].
    apply Forall2_loan_kept_refl.
  - destruct (run_keeps_rows affinity a d)
      as [(rs & Es) (kept & rest & Ei & Hk)].
    destruct (IH (snd (run affinity a d)))
      as [(rs' & Es') (kept' & rest' & Ei' & Hk')].
    split.
    + exists (rs ++ rs')%list. rewrite Es', Es. now rewrite app_assoc.
    + rewrite Ei in Hk'.
      apply Forall2_app_inv_l in Hk' as (k1 & k2 & H1 & H2 & ->).
      exists k1, (k2 ++ rest')%list. split.
      * rewrite Ei'. now rewrite app_assoc.
      * now apply (Forall2_loan_kept_trans _ kept).
Qed.

(** ** When a book is issued *)

(** X10. On a reachable database an issue goes through exactly when book id and
    roll number are not blank, the id is that of a stored book with at
    least one copy left, and either the roll number is that of a student
    without an open loan of this book or it is new and a name is given. *)
Theorem issue_book_succeeds_iff (affinity : string -> option Z)
  (bid roll name today : string) (d : db) :
  reachable affinity d ->
  (fst (issue_book affinity bid roll name today d) = Done <->
   strip bid <> "" /\ strip roll <> "" /\
   exists k b,
     affinity (strip bid) = Some k /\ select_book k d = Some b /\
     0 < b_quantity b /\
     match select_student (strip roll) d with
     | Some s => open_loans k (s_id s) d = []
     | None => strip name <> ""
     end).
Proof.
  intros R. apply reachable_consistent in R. split.
  - destruct (issue_book affinity bid roll name today d) as [r d'] eqn:E.
    simpl. intros ->. apply issue_book_done in E
      as (k & b & d1 & sid & Hb & Hr & Hk & Hs & Hq & Hst & Ho & _).
    repeat split; auto. exists k, b. repeat split; auto.
    destruct Hst as [(-> & Hn & _)|(s & -> & -> & ->)]; auto.
  - intros (Hb & Hr & k & b & Hk & Hs & Hq & Hst).
    unfold issue_book. apply is_empty_false in Hb, Hr.
    rewrite Hb, Hr, Hk, Hs. simpl.
    apply Z.leb_gt in Hq. rewrite Hq.
    destruct (select_student (strip roll) d) as [s|].
    + now rewrite Hst.
    + apply is_empty_false in Hst. rewrite Hst.
      pose proof (new_student_no_loans (strip name) (strip roll) k d R) as N.
      destruct (insert_student (strip name) (strip roll) d) as [d1 sid].
      simpl in N. now rewrite N.
Qed.

Lemma issue_book_succeeds_iff_witness :
  reachable decimal_affinity sample_db /\
  (fst (issue_book decimal_affinity "1" "R200" "Bob" "2024-05-02" sample_db)
   = Done <->
   strip "1" <> "" /\ strip "R200" <> "" /\
   exists k b,
     decimal_affinity (strip "1") = Some k /\
     select_book k sample_db = Some b /\
     0 < b_quantity b /\
     match select_student (strip "R200") sample_db with
     | Some s => open_loans k (s_id s) sample_db = []
     | None => strip "Bob" <> ""
     end).
Proof.
  assert (R : reachable decimal_affinity sample_db)
    by (exists sample_actions; reflexivity).
  split; [exact R|].
  apply (issue_book_succeeds_iff decimal_affinity
           "1" "R200" "Bob" "2024-05-02" sample_db R).
Defined.

(** ** Copies on the shelf and copies on loan *)

Lemma close_one_loan (k : Z) (i : issued) (today : string)
  (l : list issued) :
  NoDup (map i_id l) -> In i l -> i_return_date i = None ->
  (List.length
     (filter (fun x => (i_book_id x =? k)%Z && is_open x)
        (map (fun x => if (i_id x =? i_id i)%Z
                       then mkIssued (i_id x) (i_book_id x) (i_student_id x)
                                     (i_issue_date x) (Some today)
                       else x) l))
   + (if (i_book_id i =? k)%Z then 1 else 0)
   = List.length (filter (fun x => (i_book_id x =? k)%Z && is_open x) l))%nat.
Proof.
  induction l as [|x l IH]; simpl; intros N Hi Ho; [easy|].
  inversion N as [|? ? Hx Hl]; subst.
  destruct Hi as [->|Hi].
  - rewrite Z.eqb_refl. simpl. unfold is_open at 1. simpl.
    rewrite andb_false_r. unfold is_open at 2. rewrite Ho, andb_true_r.
    rewrite map_unchanged.
    + destruct (i_book_id i =? k); simpl; lia.
    + intros y Hy.
      assert (E : (i_id y =? i_id i) = false).
      { apply Z.eqb_neq. intros E. apply Hx. rewrite <- E.
        now apply in_map. }
      now rewrite E.
  - assert (E : (i_id x =? i_id i) = false).
    { apply Z.eqb_neq. intros E. apply Hx. rewrite E. now apply in_map. }
    rewrite E. specialize (IH Hl Hi Ho).
    destruct ((i_book_id x =? k) && is_open x); simpl; lia.
Qed.

(** X11. On a reachable database, for a book whose quantity is at most
    2^63-1, the quantity plus the number of its open loans is left
    unchanged by every successful issue and by every confirmed return of a
    row of the return page: the issue moves one copy from the shelf to a
    student, the return moves it back. *)
Theorem stock_conserved (affinity : string -> option Z) (d : db) :
  reachable affinity d ->
  (forall bid roll name today d',
      issue_book affinity bid roll name today d = (Done, d') ->
      forall k b, select_book k d = Some b -> b_quantity b <= max_int64 ->
                  stock k d' = stock k d) /\
  (forall row today,
      In row (load_issued_books d) ->
      forall k b, select_book k d = Some b -> b_quantity b <= max_int64 ->
                  stock k (snd (return_book (Some row) true today d))
                  = stock k d).
Proof.
  intros R. pose proof (reachable_keyed affinity d R) as K.
  pose proof (reachable_consistent affinity d R) as C. split.
  - intros bid roll name today d' H k x Hx Hmax.
    apply issue_book_done in H
      as (k0 & b & d1 & sid & _ & _ & _ & Hb & Hq & Hs & _ & ->).
    assert (E1 : books d1 = books d /\ issued_books d1 = issued_books d).
    { destruct Hs as [(_ & _ & Hi)|(s & _ & -> & _)]; [|easy].
      unfold insert_student in Hi. now injection Hi as <- _. }
    destruct E1 as [Eb Ei]. unfold stock, open_loans_of_book.
    rewrite Hx. unfold select_book in *. simpl.
    rewrite Eb, Ei, filter_app, length_app. simpl.
    rewrite select_book_map by (intros y; now destruct (b_id y =? k0)).
    rewrite Hx. pose proof Hx as Hx'.
    apply find_some in Hx as [_ F]. apply Z.eqb_eq in F.
    simpl. f_equal.
    destruct (b_id x =? k0) eqn:E; simpl.
    + apply Z.eqb_eq in E. assert (E' : (k0 =? k) = true)
        by (apply Z.eqb_eq; lia).
      rewrite E'. simpl.
      assert (Ek : k0 = k) by lia. rewrite Ek in Hb.
      assert (Exb : x = b) by congruence.
      rewrite Exb in *. rewrite sql_minus_one_exact by lia. lia.
    + apply Z.eqb_neq in E. assert (E' : (k0 =? k) = false)
        by (apply Z.eqb_neq; lia).
      rewrite E'. simpl. lia.
  - intros row today Hrow k x Hx Hmax.
    apply load_issued_books_in in Hrow
      as (i & b & s & Hi & Ho & _ & _ & _ & _ & ->).
    unfold stock, open_loans_of_book. rewrite Hx.
    unfold select_book in *. simpl.
    pose proof (close_one_loan k i today (issued_books d)
                  (loan_keys d K) Hi Ho) as L.
    rewrite select_book_map
      by (intros y; now destruct (b_id y =? i_book_id i)).
    rewrite Hx. apply find_some in Hx as [Hin F]. apply Z.eqb_eq in F.
    apply (quantity_nonneg d C) in Hin.
    simpl. f_equal.
    destruct (b_id x =? i_book_id i) eqn:E; simpl.
    + apply Z.eqb_eq in E. assert (E' : (i_book_id i =? k) = true)
        by (apply Z.eqb_eq; lia).
      rewrite E' in L. rewrite sql_plus_one_exact by lia. lia.
    + apply Z.eqb_neq in E. assert (E' : (i_book_id i =? k) = false)
        by (apply Z.eqb_neq; lia).
      rewrite E' in L. lia.
Qed.

Lemma stock_conserved_witness :
  reachable decimal_affinity sample_db /\
  stock 1 sample_db = Some 2 /\
  (forall bid roll name today d',
      issue_book decimal_affinity bid roll name today sample_db
      = (Done, d') ->
      forall k b, select_book k sample_db = Some b ->
                  b_quantity b <= max_int64 ->
                  stock k d' = stock k sample_db) /\
  (forall row today,
      In row (load_issued_books sample_db) ->
      forall k b, select_book k sample_db = Some b ->
                  b_quantity b <= max_int64 ->
                  stock k (snd (return_book (Some row) true today
                                            sample_db))
                  = stock k sample_db).
Proof.
  assert (R : reachable decimal_affinity sample_db)
    by (exists sample_actions; reflexivity).
  split; [exact R|]. split; [reflexivity|].
  apply (stock_conserved decimal_affinity sample_db R).
Defined.

(** ** Trimmed entries *)

Lemma rstrip_idem (s : string) : rstrip (rstrip s) = rstrip s.
Proof.
  induction s as [|c s IH]; simpl; [reflexivity|].
  destruct (is_space c && is_empty (rstrip s)) eqn:E; [reflexivity|].
  simpl. now rewrite IH, E.
Qed.

Lemma lstrip_head (s : string) :
  match lstrip s with
  | EmptyString => True
  | String c _ => is_space c = false
  end.
Proof.
  induction s as [|c s IH]; simpl; [exact I|].
  destruct (is_space c) eqn:E; [exact IH|exact E].
Qed.

Lemma lstrip_rstrip (s : string) :
  match s with
  | EmptyString => True
  | String c _ => is_space c = false
  end ->
  lstrip (rstrip s) = rstrip s.
Proof.
  destruct s as [|c s]; simpl; [reflexivity|].
  intros E. rewrite E. simpl. now rewrite E.
Qed.

Lemma strip_idem (s : string) : strip (strip s) = strip s.
Proof.
  unfold strip. rewrite lstrip_rstrip by apply lstrip_head.
  apply rstrip_idem.
Qed.

(** X12. Blanks around an entry never matter: each callback gives the same
    result on the typed entries and on the trimmed ones. *)
Theorem entries_are_trimmed (affinity : string -> option Z)
  (e1 e2 e3 today : string) (k : Z) (d : db) :
  save_book e1 e2 e3 d = save_book (strip e1) (strip e2) (strip e3) d /\
  save_update k e1 e2 e3 d
  = save_update k (strip e1) (strip e2) (strip e3) d /\
  issue_book affinity e1 e2 e3 today d
  = issue_book affinity (strip e1) (strip e2) (strip e3) today d /\
  search_action e1 d = search_action (strip e1) d.
Proof.
  unfold save_book, save_update, issue_book, search_action.
  now rewrite !strip_idem.
Qed.

Lemma trimmed_strip (s : string) : is_empty (strip s) = false ->
  trimmed (strip s).
Proof.
  intros H. split; [now apply is_empty_false|apply strip_idem].
Qed.

Lemma tidy_run (affinity : string -> option Z) (a : action) (d : db) :
  tidy d -> tidy (snd (run affinity a d)).
Proof.
  intros [TB TS].
  assert (TI : forall n r,
             is_empty (strip n) = false -> is_empty (strip r) = false ->
             tidy (fst (insert_student (strip n) (strip r) d))).
  { intros n r Hn Hr. split; simpl; [exact TB|].
    intros s Hs. apply in_app_iff in Hs as [Hs|[<-|[]]]; auto.
    simpl. split; now apply trimmed_strip. }
  destruct a as [t a q|k t a q|sel c|k r n today|sel c today]; simpl.
  - unfold save_book.
    destruct (is_empty (strip t)) eqn:Et; [easy|].
    destruct (is_empty (strip a)) eqn:Ea; [easy|].
    destruct (is_empty (strip q)); [easy|]. simpl.
    destruct (py_int _) as [q'|]; [|easy].
    destruct (q' <? 0); [easy|].
    destruct (max_int64 <? q'); [easy|]. simpl.
    split; simpl; [|exact TS].
    intros b Hb. apply in_app_iff in Hb as [Hb|[<-|[]]]; auto.
    simpl. split; now apply trimmed_strip.
  - unfold save_update.
    destruct (is_empty (strip t)) eqn:Et; [easy|].
    destruct (is_empty (strip a)) eqn:Ea; [easy|].
    destruct (is_empty (strip q)); [easy|]. simpl.
    destruct (py_int _) as [q'|]; [|easy].
    destruct (q' <? 0); [easy|].
    destruct (max_int64 <? q'); [easy|]. simpl.
    split; simpl; [|exact TS].
    intros b Hb. apply in_map_iff in Hb as (b0 & <- & Hb0).
    destruct (b_id b0 =? k); auto.
    simpl. split; now apply trimmed_strip.
  - unfold delete_selected.
    destruct sel as [row|]; [|easy].
    destruct c; [|easy].
    destruct (fetched _); [easy|]. simpl.
    split; simpl; [|exact TS].
    intros b Hb. apply filter_In in Hb as [Hb _]. auto.
  - unfold issue_book.
    destruct (is_empty (strip k)); [easy|].
    destruct (is_empty (strip r)) eqn:Er; [easy|]. simpl.
    destruct (affinity (strip k)) as [k'|]; [|easy].
    destruct (select_book k' d) as [b|]; [|easy].
    destruct (b_quantity b <=? 0); [easy|].
    assert (TQ : forall d1 sid, tidy d1 ->
                   tidy (decrement_quantity k'
                           (insert_issued k' sid today d1))).
    { intros d1 sid [TB1 TS1]. split; simpl; [|exact TS1].
      intros x Hx. apply in_map_iff in Hx as (x0 & <- & Hx0).
      destruct (b_id x0 =? k'); simpl; now apply TB1. }
    destruct (select_student (strip r) d) as [s|].
    + destruct (fetched _); [easy|]. simpl. now apply TQ.
    + destruct (is_empty (strip n)) eqn:En; [easy|].
      specialize (TI n r En Er).
      destruct (insert_student (strip n) (strip r) d) as [d1 sid].
      simpl in TI. destruct (fetched _); [easy|]. simpl. now apply TQ.
  - unfold return_book.
    destruct sel as [row|]; [|easy].
    destruct c; [|easy]. simpl.
    split; simpl; [|exact TS].
    intros x Hx. apply in_map_iff in Hx as (x0 & <- & Hx0).
    destruct (b_id x0 =? r_book_id row); simpl; now apply TB.
Qed.

(** X13. On a reachable database every stored title, author, student name and
    roll number is non-empty and carries no blank at either end. *)
Theorem stored_text_is_trimmed (affinity : string -> option Z) (d : db) :
  reachable affinity d ->
  (forall b, In b (books d) -> trimmed (b_title b) /\ trimmed (b_author b))
  /\ (forall s, In s (students d) ->
                trimmed (s_name s) /\ trimmed (s_roll_no s)).
Proof.
  intros [l ->]. unfold exec.
  assert (G : forall d0, tidy d0 ->
                tidy (fold_left (fun d a => snd (run affinity a d)) l d0)).
  { induction l as [|a l IH]; intros d0 T; simpl; [exact T|].
    apply IH. now apply tidy_run. }
  apply G. split; intros x [].
Qed.

Lemma stored_text_is_trimmed_witness :
  reachable decimal_affinity second_db /\
  (forall b, In b (books second_db) ->
             trimmed (b_title b) /\ trimmed (b_author b))
  /\ (forall s, In s (students second_db) ->
                trimmed (s_name s) /\ trimmed (s_roll_no s)).
Proof.
  assert (R : reachable decimal_affinity second_db).
  { exists (sample_actions
              ++ [IssueBook "1" "R200" "Bob" "2024-05-02"])%list.
    reflexivity. }
  split; [exact R|].
  apply (stored_text_is_trimmed decimal_affinity second_db R).
Defined.

(** ** Issuing a book that is not there *)

(** X14. An issue whose book id is text that is no number, or a number that is
    the id of no stored book, is answered with "Book ID not found" and
    writes nothing: no student row is created even for a new roll number
    with a name. *)
Theorem issue_unknown_book (affinity : string -> option Z)
  (bid roll name today : string) (d : db) :
  strip bid <> "" -> strip roll <> "" ->
  (affinity (strip bid) = None \/
   exists k, affinity (strip bid) = Some k /\ no_such_book k d) ->
  issue_book affinity bid roll name today d = (BookNotFound, d) /\
  error_of BookNotFound = Some NotFoundError.
Proof.
  intros Hb Hr H. split; [|reflexivity]. unfold issue_book.
  apply is_empty_false in Hb, Hr. rewrite Hb, Hr. simpl.
  destruct H as [->|(k & -> & Hk)]; [reflexivity|].
  apply select_book_none in Hk. now rewrite Hk.
Qed.

Lemma issue_unknown_book_witness :
  strip "1" <> "" /\ strip "R300" <> "" /\
  (decimal_affinity (strip "1") = None \/
   exists k, decimal_affinity (strip "1") = Some k
             /\ no_such_book k archive_db) /\
  issue_book decimal_affinity "1" "R300" "Carol" "2024-06-01" archive_db
  = (BookNotFound, archive_db) /\
  error_of BookNotFound = Some NotFoundError.
Proof.
  assert (H1 : strip "1" <> "") by discriminate.
  assert (H2 : strip "R300" <> "") by discriminate.
  assert (H3 : decimal_affinity (strip "1") = None \/
               exists k, decimal_affinity (strip "1") = Some k
                         /\ no_such_book k archive_db).
  { right. exists 1. split; [reflexivity|]. intros b []. }
  split; [exact H1|]. split; [exact H2|]. split; [exact H3|].
  apply (issue_unknown_book decimal_affinity
           "1" "R300" "Carol" "2024-06-01" archive_db H1 H2 H3).
Defined.
